(** * ai-processing-api: the provider and streaming layer of [main.py]

    A shallow embedding of [src/main.py]: the content resolver
    ([fetch_web_content]), the prompt builder ([build_prompt]), the two
    provider adapters ([call_openai], [call_ollama], [stream_openai_response],
    [stream_ollama_response]) and the two endpoints ([process_with_ai],
    [process_with_ai_stream]).

    Python strings are sequences of code points, exceptions are values of an
    error monad, and everything the process does not control (the network, the
    clock, the environment) is read from a [World]. *)

From Stdlib Require Import List NArith ZArith Lia Bool String Ascii DecimalString.
Import ListNotations.

Set Implicit Arguments.
Set Warnings "-register-all,-abstract-large-number".

(** ** Python strings *)

(** A [str] is a sequence of Unicode code points; [len] is [length]. *)
Definition char := N.
Definition str := list char.

Definition ch (a : ascii) : char := N_of_ascii a.

(** An ASCII literal of the source. *)
Definition lit (s : string) : str := map ch (list_ascii_of_string s).

(** [a == b]. *)
Fixpoint str_eqb (a b : str) : bool :=
  match a, b with
  | [], [] => true
  | x :: a', y :: b' => N.eqb x y && str_eqb a' b'
  | _, _ => false
  end.

(** Truth value of a string: the empty string is falsy. *)
Definition truthy (s : str) : bool :=
  match s with [] => false | _ :: _ => true end.

(** Truth value of an [Optional[str]]: [None] and [""] are falsy. *)
Definition opt_truthy (o : option str) : bool :=
  match o with Some s => truthy s | None => false end.

(** [o or default] on an [Optional[str]]. *)
Definition or_default (o : option str) (d : str) : str :=
  match o with
  | Some s => if truthy s then s else d
  | None => d
  end.

Fixpoint startswith (p s : str) : bool :=
  match p, s with
  | [], _ => true
  | a :: p', b :: s' => N.eqb a b && startswith p' s'
  | _ :: _, [] => false
  end.

(** [Py_UNICODE_ISSPACE]: the characters [str.isspace], [str.strip] and the
    regular expression class [\s] (on [str] patterns) all agree on. *)
Definition isspace (c : char) : bool :=
  ((9 <=? c) && (c <=? 13) || (28 <=? c) && (c <=? 32)
   || (c =? 133) || (c =? 160) || (c =? 5760)
   || (8192 <=? c) && (c <=? 8202)
   || (c =? 8232) || (c =? 8233) || (c =? 8239) || (c =? 8287)
   || (c =? 12288))%N.

Fixpoint lstrip (s : str) : str :=
  match s with
  | c :: s' => if isspace c then lstrip s' else s
  | [] => []
  end.

Definition rstrip (s : str) : str := rev (lstrip (rev s)).

(** [s.strip()]. *)
Definition strip (s : str) : str := rstrip (lstrip s).

(** [str(n)] for an integer. *)
Definition str_of_Z (z : Z) : str :=
  lit (NilZero.string_of_int (Z.to_int z)).

(** ** Regular expressions

    The fragment of [re] that [fetch_web_content] uses: character classes,
    concatenation, and greedy or lazy repetition of a character class.  The
    matcher is the backtracking matcher of [re]: alternatives are tried in
    priority order and the first that lets the rest of the pattern match
    wins. *)
Inductive regex : Type :=
| Chr (p : char -> bool)
| Cat (r1 r2 : regex)
| StarG (p : char -> bool)   (* [p*]  : longest first *)
| StarL (p : char -> bool).  (* [p*?] : shortest first *)

Fixpoint star_greedy (p : char -> bool) (s : str) (k : str -> option str)
  : option str :=
  match s with
  | c :: s' =>
      if p c then
        match star_greedy p s' k with
        | Some r => Some r
        | None => k s
        end
      else k s
  | [] => k []
  end.

Fixpoint star_lazy (p : char -> bool) (s : str) (k : str -> option str)
  : option str :=
  match k s with
  | Some r => Some r
  | None =>
      match s with
      | c :: s' => if p c then star_lazy p s' k else None
      | [] => None
      end
  end.

(** [matchk r s k]: match [r] at the head of [s], then [k] on what is left;
    the result is the text after the whole match. *)
Fixpoint matchk (r : regex) (s : str) (k : str -> option str) : option str :=
  match r with
  | Chr p =>
      match s with
      | c :: s' => if p c then k s' else None
      | [] => None
      end
  | Cat r1 r2 => matchk r1 s (fun s' => matchk r2 s' k)
  | StarG p => star_greedy p s k
  | StarL p => star_lazy p s k
  end.

(** [pattern.match(s)]: the text left after the match anchored at the head. *)
Definition re_match (r : regex) (s : str) : option str := matchk r s Some.

(** [re.sub(r, repl, s)] scanning from the left; [skip] counts the characters
    of the current match that are still to be consumed. *)
Fixpoint re_sub_from (r : regex) (repl : str) (skip : nat) (s : str) : str :=
  match skip, s with
  | S k, _ :: s' => re_sub_from r repl k s'
  | S _, [] => []
  | O, [] => match re_match r [] with Some _ => repl | None => [] end
  | O, c :: s' =>
      match re_match r s with
      | Some rest =>
          match List.length s - List.length rest with
          | S k => repl ++ re_sub_from r repl k s'
          | O => repl ++ c :: re_sub_from r repl O s'
          end
      | None => c :: re_sub_from r repl O s'
      end
  end.

Definition re_sub (r : regex) (repl : str) (s : str) : str :=
  re_sub_from r repl 0 s.

(** Character classes. *)
Definition is_char (a : ascii) (c : char) : bool := N.eqb c (ch a).
Definition not_gt (c : char) : bool := negb (is_char ">" c).
Definition any_char (_ : char) : bool := true.   (* [.] under [re.DOTALL] *)

(** A literal letter under [re.IGNORECASE] on a [str] pattern: the letter, its
    upper case, and the code points [re] treats as case variants of it
    (U+017F for [s]; U+0130 and U+0131 for [i]; U+212A for [k]). *)
Definition ci (a : ascii) (c : char) : bool :=
  let l := ch a in
  (N.eqb c l
   || (N.leb 97 l && N.leb l 122 && N.eqb c (l - 32))
   || (N.eqb l 115 && N.eqb c 383)
   || (N.eqb l 105 && (N.eqb c 304 || N.eqb c 305))
   || (N.eqb l 107 && N.eqb c 8490))%N.

(** A literal word, every character matched by [cls]. *)
Fixpoint word (cls : ascii -> char -> bool) (w : string) (tail : regex) : regex :=
  match w with
  | EmptyString => tail
  | String a w' => Cat (Chr (cls a)) (word cls w' tail)
  end.

(** [r'<script[^>]*>.*?</script>'] with [re.DOTALL | re.IGNORECASE]. *)
Definition script_re : regex :=
  word ci "<script"
    (Cat (StarG not_gt) (Cat (Chr (is_char ">"))
       (Cat (StarL any_char) (word ci "</script" (Chr (is_char ">")))))).

(** [r'<style[^>]*>.*?</style>'] with [re.DOTALL | re.IGNORECASE]. *)
Definition style_re : regex :=
  word ci "<style"
    (Cat (StarG not_gt) (Cat (Chr (is_char ">"))
       (Cat (StarL any_char) (word ci "</style" (Chr (is_char ">")))))).

(** [r'<[^>]+>']. *)
Definition tag_re : regex :=
  Cat (Chr (is_char "<"))
    (Cat (Chr not_gt) (Cat (StarG not_gt) (Chr (is_char ">")))).

(** [r'\s+']. *)
Definition ws_re : regex := Cat (Chr isspace) (StarG isspace).

(** ** The sanitizer of [fetch_web_content] (lines 509-519) *)
Definition sanitize (content : str) : str :=
  let content := re_sub script_re [] content in
  let content := re_sub style_re [] content in
  let content := re_sub tag_re [] content in
  let content := re_sub ws_re (lit " ") content in
  strip content.

(** The length cap of [fetch_web_content] (lines 521-523). *)
Definition truncation_marker : str := lit "... [Content truncated]".

Definition truncate (content : str) : str :=
  if Nat.ltb 8000 (List.length content)
  then firstn 8000 content ++ truncation_marker
  else content.

(** ** Exceptions and JSON values *)

(** The exceptions the code raises or catches.  Every one is an [Exception];
    [RequestException] stands for [requests.exceptions.RequestException] and
    its subclasses, [Exception] for any other exception, with its message. *)
Inductive exn : Type :=
| HTTPException (status_code : Z) (detail : str)
| RequestException (msg : str)
| ValueError (msg : str)
| Exception (msg : str).

Definition is_RequestException (e : exn) : bool :=
  match e with RequestException _ => true | _ => false end.

(** [str(e)]; for [HTTPException] this is Starlette's ["<status>: <detail>"]. *)
Definition exn_str (e : exn) : str :=
  match e with
  | HTTPException c d => str_of_Z c ++ lit ": " ++ d
  | RequestException m | ValueError m | Exception m => m
  end.

(** Decoded JSON.  Numbers are kept exact; clock readings are numbers. *)
Inductive json : Type :=
| JNull
| JBool (b : bool)
| JNum (n : Z)
| JStr (s : str)
| JArr (items : list json)
| JObj (fields : list (str * json)).

Definition dict := list (str * json).

(** Truth value of a Python object. *)
Definition json_truthy (v : json) : bool :=
  match v with
  | JNull => false
  | JBool b => b
  | JNum n => negb (Z.eqb n 0)
  | JStr s => truthy s
  | JArr l => match l with [] => false | _ => true end
  | JObj f => match f with [] => false | _ => true end
  end.

(** [key in d] and [d[key]]. *)
Fixpoint dict_lookup (key : str) (d : dict) : option json :=
  match d with
  | [] => None
  | (k, v) :: d' => if str_eqb k key then Some v else dict_lookup key d'
  end.

(** [d.get(key, default)]. *)
Definition dict_get (key : str) (default : json) (d : dict) : json :=
  match dict_lookup key d with Some v => v | None => default end.

Definition py_type_name (v : json) : str :=
  match v with
  | JNull => lit "NoneType"
  | JBool _ => lit "bool"
  | JNum _ => lit "int"
  | JStr _ => lit "str"
  | JArr _ => lit "list"
  | JObj _ => lit "dict"
  end.

Definition dq : str := [34%N].
Definition nl : str := [10%N].

(** ** Lazy sequences: what a response body or a completion stream yields *)
Inductive iter (A : Type) : Type :=
| Stop
| Yield (a : A) (rest : iter A)
| Fail (e : exn).          (* the iterator raises *)
Arguments Stop {A}.
Arguments Fail {A} e.

(** A line of [response.iter_lines()], by what the handler can do with it. *)
Inductive line : Type :=
| EmptyLine                    (* [b""]: falsy *)
| Undecodable (msg : str)      (* [decode('utf-8')] raises UnicodeDecodeError *)
| NotJson                      (* [json.loads] raises JSONDecodeError *)
| JsonOther (msg : str)        (* JSON, but not an object: the dict operations
                                  raise TypeError or AttributeError *)
| Json (data : dict).          (* a JSON object *)

(** An element of the hosted completion stream, by what
    [chunk.choices[0].delta.content] evaluates to. *)
Inductive delta : Type :=
| Delta (content : option str)
| BadDelta (msg : str).        (* the access raises *)

(** What [response.choices[0].message.content.strip()] evaluates to. *)
Inductive completion : Type :=
| Content (content : str)
| BadCompletion (msg : str).   (* the access raises *)

(** A [requests.Response]. *)
Record response : Type := Response {
  status_code : Z;
  reason : str;
  resp_url : str;
  text : str;
  json_body : exn + json;       (* [response.json()] *)
  iter_lines : iter line
}.

(** ** Requests, envelopes, frames *)
(** [ProcessRequest]; its [text] and [url] fields are [req_text] and
    [req_url] here, [text] being the body of a [response]. *)
Record ProcessRequest : Type := {
  req_text : option str;
  req_url : option str;
  task_type : option str;
  format_type : option str;
  additional_context : option str;
  model_provider : option str;
  model_name : option str;
  system_prompt : option str
}.

Record ProcessResponse : Type := {
  success : bool;
  result : str;
  model_used : str;
  processing_time : Z;
  source_type : str;
  source : str
}.

(** The JSON body of [requests.post(.../api/generate)]. *)
Record generate_request : Type := {
  g_model : str;
  g_prompt : str;
  g_stream : bool;
  g_temperature : str;
  g_num_predict : Z
}.

(** The arguments of [openai.ChatCompletion.create]. *)
Record chat_request : Type := {
  c_model : str;
  c_system : str;
  c_user : str;
  c_temperature : str;
  c_max_tokens : Z;
  c_stream : bool
}.

(** One server-pushed frame, [f"data: {json.dumps(payload)}\n\n"]. *)
Record frame : Type := SSE { payload : dict }.

(** ** The world and the effect monad *)
Inductive net_call : Type :=
| GET (url : str) (user_agent : str) (timeout : Z)
| POST (url : str) (body : generate_request) (timeout : Z)
| ChatCompletion (req : chat_request).

Record World : Type := {
  openai_api_key : option str;                    (* [openai.api_key] *)
  OLLAMA_BASE_URL : str;
  time_time : nat -> Z;                           (* successive clock readings *)
  netloc_check : str -> option str;               (* [urlparse]'s host checks:
                                                     the ValueError message *)
  requests_get : str -> exn + response;
  requests_post : str -> generate_request -> exn + response;
  openai_create : chat_request -> exn + completion;
  openai_create_stream : chat_request -> exn + iter delta
}.

Record St : Type := { trace : list net_call; ticks : nat }.

Definition st0 : St := {| trace := []; ticks := 0 |}.

Inductive outcome (A : Type) : Type :=
| Ok (a : A)
| Raise (e : exn).
Arguments Raise {A} e.

Definition M (A : Type) : Type := St -> outcome A * St.

Definition ret {A} (a : A) : M A := fun st => (Ok a, st).
Definition raise {A} (e : exn) : M A := fun st => (Raise e, st).
Definition bind {A B} (m : M A) (k : A -> M B) : M B :=
  fun st =>
    match m st with
    | (Ok a, st') => k a st'
    | (Raise e, st') => (Raise e, st')
    end.

(** [try: m  except Exception as e: h e]. *)
Definition try_except {A} (m : M A) (h : exn -> M A) : M A :=
  fun st =>
    match m st with
    | (Ok a, st') => (Ok a, st')
    | (Raise e, st') => h e st'
    end.

Notation "x <- m ;; k" := (bind m (fun x => k))
  (at level 61, m at next level, right associativity).

Definition log (c : net_call) : M unit :=
  fun st => (Ok tt, {| trace := trace st ++ [c]; ticks := ticks st |}).

(** An outcome supplied by the world. *)
Definition of_world {A} (r : exn + A) : M A :=
  match r with inl e => raise e | inr a => ret a end.

(** [time.time()]. *)
Definition now (w : World) : M Z :=
  fun st => (Ok (time_time w (ticks st)),
             {| trace := trace st; ticks := S (ticks st) |}).

(** ** [urllib.parse.urlparse]: the scheme and the netloc of a URL

    The two components [fetch_web_content] reads, computed as CPython's
    [urlsplit] computes them; the host checks that may raise [ValueError]
    (unbalanced IPv6 brackets, NFKC normalisation) are the world's
    [netloc_check]. *)
Definition scheme_char (c : char) : bool :=
  ((97 <=? c) && (c <=? 122) || (65 <=? c) && (c <=? 90)
   || (48 <=? c) && (c <=? 57)
   || (c =? 43) || (c =? 45) || (c =? 46))%N.

Definition ascii_alpha (c : char) : bool :=
  ((97 <=? c) && (c <=? 122) || (65 <=? c) && (c <=? 90))%N.

Definition ascii_lower (c : char) : char :=
  if ((65 <=? c) && (c <=? 90))%N then (c + 32)%N else c.

(** [s.find(c)]. *)
Fixpoint find_char (c : char) (s : str) : option nat :=
  match s with
  | [] => None
  | x :: s' =>
      if N.eqb x c then Some 0
      else match find_char c s' with Some i => Some (S i) | None => None end
  end.

Fixpoint lstrip_c0 (s : str) : str :=
  match s with
  | c :: s' => if (c <=? 32)%N then lstrip_c0 s' else s
  | [] => []
  end.

Definition unsafe_url_byte (c : char) : bool :=
  ((c =? 9) || (c =? 13) || (c =? 10))%N.

Definition netloc_delim (c : char) : bool :=
  is_char "/" c || is_char "?" c || is_char "#" c.

Fixpoint take_until (p : char -> bool) (s : str) : str :=
  match s with
  | c :: s' => if p c then [] else c :: take_until p s'
  | [] => []
  end.

(** The scheme and what follows it. *)
Definition split_scheme (url : str) : str * str :=
  match find_char (ch ":") url, url with
  | Some (S i), c0 :: _ =>
      if ascii_alpha c0 && forallb scheme_char (firstn (S i) url)
      then (map ascii_lower (firstn (S i) url), skipn (S (S i)) url)
      else ([], url)
  | _, _ => ([], url)
  end.

Definition urlparse (w : World) (url : str) : M (str * str) :=
  let url := lstrip_c0 url in
  let url := filter (fun c => negb (unsafe_url_byte c)) url in
  let '(scheme, url) := split_scheme url in
  if startswith (lit "//") url then
    let netloc := take_until netloc_delim (skipn 2 url) in
    match netloc_check w netloc with
    | Some msg => raise (ValueError msg)
    | None => ret (scheme, netloc)
    end
  else ret (scheme, []).

(** ** The content resolver: [fetch_web_content] *)
Definition USER_AGENT : str :=
  lit "Mozilla/5.0 (Windows NT 10.0; Win64; x64) AppleWebKit/537.36 (KHTML, like Gecko) Chrome/91.0.4472.124 Safari/537.36".

(** [response.raise_for_status()]: an [HTTPError], which is a
    [RequestException], on a 4xx or 5xx status. *)
Definition raise_for_status (r : response) : M unit :=
  let c := status_code r in
  if ((400 <=? c) && (c <? 500))%Z then
    raise (RequestException
             (str_of_Z c ++ lit " Client Error: " ++ reason r
              ++ lit " for url: " ++ resp_url r))
  else if ((500 <=? c) && (c <? 600))%Z then
    raise (RequestException
             (str_of_Z c ++ lit " Server Error: " ++ reason r
              ++ lit " for url: " ++ resp_url r))
  else ret tt.

Definition fetch_web_content (w : World) (url : str) : M str :=
  try_except
    (parsed_url <- urlparse w url ;;
     _ <- (if negb (truthy (fst parsed_url)) || negb (truthy (snd parsed_url))
           then raise (ValueError (lit "Invalid URL format"))
           else ret tt) ;;
     let url :=
       if startswith (lit "http://") url || startswith (lit "https://") url
       then url else lit "https://" ++ url in
     _ <- log (GET url USER_AGENT 30) ;;
     response <- of_world (requests_get w url) ;;
     _ <- raise_for_status response ;;
     let content := text response in
     let content := sanitize content in
     ret (truncate content))
    (fun e =>
       if is_RequestException e
       then raise (HTTPException 400 (lit "Failed to fetch URL: " ++ exn_str e))
       else raise (HTTPException 400 (lit "Error processing URL: " ++ exn_str e))).

(** ** The prompt builder: [build_prompt] *)
Definition build_prompt (text : str) (source_type : str) : str :=
  let source_info :=
    if str_eqb source_type (lit "url") then lit "web page content" else lit "text" in
  lit "
Please process the following " ++ source_info ++ lit " and return a well-formatted JSON response:

" ++ text ++ lit "

Requirements:
- Return valid JSON format
- Include relevant information extracted or generated from the " ++ source_info ++ lit "
- Structure the response logically
- If the " ++ source_info ++ lit " contains questions, provide answers
- If the " ++ source_info ++ lit " contains data, organize it appropriately
- If processing a web page, extract key information, summarize content, and identify main topics
".

(** ** The provider adapters *)
Definition DEFAULT_SYSTEM_PROMPT : str :=
  lit "You are a JSON structuring engine.

RULES:
1. Take the input EXACTLY as provided by the user.
2. Do NOT interpret, summarize, rewrite, or add any information.
3. Preserve ALL words, spelling, punctuation, symbols, line breaks, and formatting EXACTLY as they appear.
4. Do NOT infer product names, descriptions, or create extra data not explicitly present in the input.
5. Output ONLY valid JSON. Do NOT include explanations or any text outside the JSON.
6. If unsure, wrap the input exactly as-is into the " ++ dq ++ lit "raw_input" ++ dq ++ lit " field.

Your output format must always be:

{
  " ++ dq ++ lit "structured" ++ dq ++ lit ": {
    // Create keys ONLY for clearly identifiable sections or labels in the input.
    // Use the exact wording from the input for the values.
    // If no structure is identifiable, leave this object empty.
  }
}

- Do NOT rephrase or interpret values when filling fields.
- If there are no fields to extract, leave " ++ dq ++ lit "structured" ++ dq
  ++ lit " as an empty object.".

(** [system_prompt if system_prompt else DEFAULT_SYSTEM_PROMPT]. *)
Definition system_content (system_prompt : option str) : str :=
  if opt_truthy system_prompt
  then match system_prompt with Some s => s | None => [] end
  else DEFAULT_SYSTEM_PROMPT.

Definition openai_request (model system_content prompt : str) (stream : bool)
  : chat_request :=
  {| c_model := model; c_system := system_content; c_user := prompt;
     c_temperature := lit "0.7"; c_max_tokens := 1000; c_stream := stream |}.

Definition ollama_request (model system_content prompt : str) (stream : bool)
  : generate_request :=
  {| g_model := model;
     g_prompt := system_content ++ nl ++ nl ++ prompt;
     g_stream := stream;
     g_temperature := lit "0.7"; g_num_predict := 1000 |}.

Definition call_openai (w : World) (prompt : str)
    (model_name system_prompt : option str) : M str :=
  if negb (opt_truthy (openai_api_key w)) then
    raise (HTTPException 500
      (lit "OpenAI API key not configured. Please set OPENAI_API_KEY environment variable."))
  else
    let model := or_default model_name (lit "gpt-3.5-turbo") in
    let system_content := system_content system_prompt in
    let req := openai_request model system_content prompt false in
    _ <- log (ChatCompletion req) ;;
    response <- of_world (openai_create w req) ;;
    match response with
    | Content c => ret (strip c)
    | BadCompletion msg => raise (Exception msg)
    end.

(** [data.get("response", "").strip()] on the decoded body. *)
Definition response_text_of (data : json) : M str :=
  match data with
  | JObj d =>
      match dict_get (lit "response") (JStr []) d with
      | JStr s => ret (strip s)
      | v => raise (Exception (lit "'" ++ py_type_name v
                               ++ lit "' object has no attribute 'strip'"))
      end
  | v => raise (Exception (lit "'" ++ py_type_name v
                           ++ lit "' object has no attribute 'get'"))
  end.

Definition call_ollama (w : World) (prompt : str)
    (model_name system_prompt : option str) : M str :=
  let model := or_default model_name (lit "llama2") in
  try_except
    (let system_content := system_content system_prompt in
     let url := OLLAMA_BASE_URL w ++ lit "/api/generate" in
     let body := ollama_request model system_content prompt false in
     _ <- log (POST url body 120) ;;
     response <- of_world (requests_post w url body) ;;
     _ <- (if negb (Z.eqb (status_code response) 200)
           then raise (Exception (lit "Ollama API error: "
                                  ++ str_of_Z (status_code response)
                                  ++ lit " - " ++ text response))
           else ret tt) ;;
     data <- of_world (json_body response) ;;
     response_text_of data)
    (fun e =>
       if is_RequestException e
       then raise (Exception (lit "Failed to connect to Ollama at "
                              ++ OLLAMA_BASE_URL w ++ lit ": " ++ exn_str e))
       else raise (Exception (lit "Ollama API error: " ++ exn_str e))).

(** ** Streaming: frames and generators *)
Definition chunk_frame (chunk : str) (done : json) : frame :=
  SSE [(lit "chunk", JStr chunk); (lit "done", done)].

Definition done_frame (processing_time : Z) (model_used source_type source : str)
  : frame :=
  SSE [(lit "done", JBool true);
       (lit "processing_time", JNum processing_time);
       (lit "model_used", JStr model_used);
       (lit "source_type", JStr source_type);
       (lit "source", JStr source)].

Definition error_frame (message : str) : frame :=
  SSE [(lit "error", JStr message)].

(** A generator run to exhaustion: the frames it yields, in order. *)
Definition Gen : Type := St -> list frame * St.

(** The two [except] clauses that close [stream_ollama_response]. *)
Definition ollama_stream_error (e : exn) : frame :=
  if is_RequestException e
  then error_frame (lit "Failed to connect to Ollama: " ++ exn_str e)
  else error_frame (lit "Ollama API error: " ++ exn_str e).

(** The [for line in response.iter_lines()] loop of [stream_ollama_response]. *)
Fixpoint ollama_lines (w : World) (model source_type source : str)
    (start_time : Z) (full_response : str) (lines : iter line) : Gen :=
  fun st =>
    match lines with
    | Stop => ([], st)
    | Fail e => ([ollama_stream_error e], st)
    | Yield l rest =>
        let continue := ollama_lines w model source_type source start_time in
        match l with
        | EmptyLine => continue full_response rest st
        | Undecodable msg => ([ollama_stream_error (ValueError msg)], st)
        | NotJson => continue full_response rest st
        | JsonOther msg => ([ollama_stream_error (Exception msg)], st)
        | Json data =>
            let finish (full_response : str) : list frame * St :=
              if json_truthy (dict_get (lit "done") (JBool false) data) then
                let processing_time := (time_time w (ticks st) - start_time)%Z in
                ([done_frame processing_time (lit "ollama:" ++ model)
                    source_type source],
                 {| trace := trace st; ticks := S (ticks st) |})
              else continue full_response rest st in
            match dict_lookup (lit "response") data with
            | Some (JStr chunk) =>
                let full_response := full_response ++ chunk in
                let '(frames, st') := finish full_response in
                (chunk_frame chunk (dict_get (lit "done") (JBool false) data)
                   :: frames, st')
            | Some v =>
                ([ollama_stream_error
                    (Exception (lit "can only concatenate str (not " ++ dq
                                ++ py_type_name v ++ dq ++ lit ") to str"))], st)
            | None => finish full_response
            end
        end
    end.

Definition stream_ollama_response (w : World) (prompt : str)
    (model_name : option str) (source_type source : str) (start_time : Z)
    (system_prompt : option str) : Gen :=
  fun st =>
    let model := or_default model_name (lit "llama2") in
    let system_content := system_content system_prompt in
    let url := OLLAMA_BASE_URL w ++ lit "/api/generate" in
    let body := ollama_request model system_content prompt true in
    let st := {| trace := trace st ++ [POST url body 120]; ticks := ticks st |} in
    match requests_post w url body with
    | inl e => ([ollama_stream_error e], st)
    | inr response =>
        if negb (Z.eqb (status_code response) 200) then
          ([error_frame (lit "Ollama API error: "
                         ++ str_of_Z (status_code response))], st)
        else
          ollama_lines w model source_type source start_time []
            (iter_lines response) st
    end.

(** The [for chunk in response] loop of [stream_openai_response] and the
    [Done] frame after it, inside the [try]. *)
Fixpoint openai_chunks (w : World) (model source_type source : str)
    (start_time : Z) (full_response : str) (chunks : iter delta) : Gen :=
  fun st =>
    match chunks with
    | Stop =>
        let processing_time := (time_time w (ticks st) - start_time)%Z in
        ([done_frame processing_time (lit "openai:" ++ model) source_type source],
         {| trace := trace st; ticks := S (ticks st) |})
    | Fail e => ([error_frame (lit "OpenAI API error: " ++ exn_str e)], st)
    | Yield (BadDelta msg) _ =>
        ([error_frame (lit "OpenAI API error: " ++ msg)], st)
    | Yield (Delta c) rest =>
        if opt_truthy c then
          let content := match c with Some s => s | None => [] end in
          let full_response := full_response ++ content in
          let '(frames, st') :=
            openai_chunks w model source_type source start_time
              full_response rest st in
          (chunk_frame content (JBool false) :: frames, st')
        else
          openai_chunks w model source_type source start_time
            full_response rest st
    end.

Definition stream_openai_response (w : World) (prompt : str)
    (model_name : option str) (source_type source : str) (start_time : Z)
    (system_prompt : option str) : Gen :=
  fun st =>
    if negb (opt_truthy (openai_api_key w)) then
      ([error_frame (lit "OpenAI API key not configured")], st)
    else
      let model := or_default model_name (lit "gpt-3.5-turbo") in
      let system_content := system_content system_prompt in
      let req := openai_request model system_content prompt true in
      let st := {| trace := trace st ++ [ChatCompletion req]; ticks := ticks st |} in
      match openai_create_stream w req with
      | inl e => ([error_frame (lit "OpenAI API error: " ++ exn_str e)], st)
      | inr response =>
          openai_chunks w model source_type source start_time [] response st
      end.

(** ** The endpoints *)

(** "Determine the source of the input": the same block opens the [try] of
    both endpoints (lines 307-320 and 360-373).  It yields
    [(source_type, source_text, source)]. *)
Definition determine_source (w : World) (request : ProcessRequest)
  : M (str * str * str) :=
  if opt_truthy (req_url request) then
    let url := match req_url request with Some u => u | None => [] end in
    source_text <- fetch_web_content w url ;;
    ret (lit "url", source_text, url)
  else if opt_truthy (req_text request) then
    let text := match req_text request with Some t => t | None => [] end in
    ret (lit "text", text,
         if Nat.ltb 100 (List.length text)
         then firstn 100 text ++ lit "..." else text)
  else
    raise (HTTPException 400
             (lit "Either 'text' or 'url' must be provided for processing.")).

Definition is_ollama (model_provider : option str) : bool :=
  match model_provider with
  | Some p => str_eqb p (lit "ollama")
  | None => false
  end.

(** The [except Exception as e] clause that closes both endpoints. *)
Definition processing_failed {A} (w : World) (e : exn) : M A :=
  _ <- now w ;;
  raise (HTTPException 500 (lit "AI processing failed: " ++ exn_str e)).

(** [POST /process]. *)
Definition process_with_ai (w : World) (request : ProcessRequest)
  : M ProcessResponse :=
  start_time <- now w ;;
  try_except
    (src <- determine_source w request ;;
     let '(source_type, source_text, source) := src in
     let prompt := build_prompt source_text source_type in
     called <-
       (if is_ollama (model_provider request) then
          result <- call_ollama w prompt (model_name request)
                      (system_prompt request) ;;
          ret (result,
               lit "ollama:" ++ or_default (model_name request) (lit "llama2"))
        else
          result <- call_openai w prompt (model_name request)
                      (system_prompt request) ;;
          ret (result,
               lit "openai:"
               ++ or_default (model_name request) (lit "gpt-3.5-turbo"))) ;;
     t <- now w ;;
     ret {| success := true;
            result := fst called;
            model_used := snd called;
            processing_time := (t - start_time)%Z;
            source_type := source_type;
            source := source |})
    (processing_failed w).

(** [POST /process-stream]: the frames of the [StreamingResponse], the
    generator run to exhaustion once the handler has returned it. *)
Definition process_with_ai_stream (w : World) (request : ProcessRequest)
  : M (list frame) :=
  start_time <- now w ;;
  streaming <-
    try_except
      (src <- determine_source w request ;;
       let '(source_type, source_text, source) := src in
       let prompt := build_prompt source_text source_type in
       if is_ollama (model_provider request) then
         ret (stream_ollama_response w prompt (model_name request)
                source_type source start_time (system_prompt request))
       else
         ret (stream_openai_response w prompt (model_name request)
                source_type source start_time (system_prompt request)))
      (processing_failed w) ;;
  fun st => let '(frames, st') := streaming st in (Ok frames, st').

(** ** Stream events: how a consumer reads a frame *)
Inductive event_kind : Type := Chunk | Done | Error.

(** A frame with an ["error"] key is an error, one with a ["chunk"] key is a
    chunk, otherwise it is the trailer. *)
Definition kind_of (f : frame) : event_kind :=
  match dict_lookup (lit "error") (payload f),
        dict_lookup (lit "chunk") (payload f) with
  | Some _, _ => Error
  | None, Some _ => Chunk
  | None, None => Done
  end.

Definition is_terminal (f : frame) : bool :=
  match kind_of f with Chunk => false | Done | Error => true end.

(** Exactly one terminal event, which is the last event; chunks before it. *)
Definition well_terminated (frames : list frame) : Prop :=
  exists chunks last,
    frames = chunks ++ [last]
    /\ is_terminal last = true
    /\ forallb (fun f => negb (is_terminal f)) chunks = true.

Definition count_terminal (frames : list frame) : nat :=
  List.length (filter is_terminal frames).

(** ** Auxiliary notions for the sanitizer *)

(** The leading characters in [p], and what follows them. *)
Fixpoint span (p : char -> bool) (s : str) : nat :=
  match s with
  | c :: s' => if p c then S (span p s') else 0
  | [] => 0
  end.

Fixpoint drop_while (p : char -> bool) (s : str) : str :=
  match s with
  | c :: s' => if p c then drop_while p s' else s
  | [] => []
  end.

(** The continuation "a [>] must come next". *)
Definition after_gt (k : str -> option str) (s : str) : option str :=
  match s with
  | g :: u => if is_char ">" g then k u else None
  | [] => None
  end.

Definition has_gt (s : str) : bool := existsb (is_char ">") s.

(** [r] matches at no position of [s]. *)
Fixpoint no_match (r : regex) (s : str) : Prop :=
  re_match r s = None /\
  match s with
  | [] => True
  | _ :: s' => no_match r s'
  end.

(** A tag [<[^>]+>] starts at [c :: s']. *)
Definition tag_start (c : char) (s' : str) : bool :=
  is_char "<" c &&
  match s' with
  | d :: t => not_gt d && has_gt t
  | [] => false
  end.

Fixpoint tagless (s : str) : bool :=
  match s with
  | [] => true
  | c :: s' => negb (tag_start c s') && tagless s'
  end.

(** What [re.sub(r'\s+', ' ', s)] computes, as one pass with a flag. *)
Fixpoint collapse (in_run : bool) (s : str) : str :=
  match s with
  | [] => []
  | c :: s' =>
      if isspace c then
        if in_run then collapse true s' else 32%N :: collapse true s'
      else c :: collapse false s'
  end.

Definition head_not_space (s : str) : bool :=
  match s with
  | d :: _ => negb (isspace d)
  | [] => true
  end.

(** Every white-space character is a lone U+0020 inside the text. *)
Fixpoint single_spaced (s : str) : bool :=
  match s with
  | [] => true
  | c :: s' =>
      (if isspace c then N.eqb c 32 && head_not_space s' else true)
      && single_spaced s'
  end.

(** ** Membership in a lazy sequence *)
Fixpoint iter_In {A : Type} (a : A) (it : iter A) : Prop :=
  match it with
  | Stop => False
  | Fail _ => False
  | Yield b rest => b = a \/ iter_In a rest
  end.


(** ** Sample requests and worlds *)

(** A request with every field at its declared default. *)
Definition default_request : ProcessRequest :=
  {| req_text := None; req_url := None;
     task_type := Some (lit "general"); format_type := Some (lit "json");
     additional_context := None;
     model_provider := Some (lit "openai");
     model_name := None; system_prompt := None |}.

Definition with_text (t : option str) (r : ProcessRequest) : ProcessRequest :=
  {| req_text := t; req_url := req_url r;
     task_type := task_type r; format_type := format_type r;
     additional_context := additional_context r;
     model_provider := model_provider r;
     model_name := model_name r; system_prompt := system_prompt r |}.

Definition with_url (u : option str) (r : ProcessRequest) : ProcessRequest :=
  {| req_text := req_text r; req_url := u;
     task_type := task_type r; format_type := format_type r;
     additional_context := additional_context r;
     model_provider := model_provider r;
     model_name := model_name r; system_prompt := system_prompt r |}.

Definition with_system_prompt (p : option str) (r : ProcessRequest)
  : ProcessRequest :=
  {| req_text := req_text r; req_url := req_url r;
     task_type := task_type r; format_type := format_type r;
     additional_context := additional_context r;
     model_provider := model_provider r;
     model_name := model_name r; system_prompt := p |}.

Definition with_provider (p : option str) (r : ProcessRequest) : ProcessRequest :=
  {| req_text := req_text r; req_url := req_url r;
     task_type := task_type r; format_type := format_type r;
     additional_context := additional_context r;
     model_provider := p;
     model_name := model_name r; system_prompt := system_prompt r |}.

Definition ok_response (body : str) (lines : iter line) : response :=
  {| status_code := 200; reason := lit "OK"; resp_url := [];
     text := body;
     json_body := inr (JObj [(lit "response", JStr (lit " fine "))]);
     iter_lines := lines |}.

(** The local backend answers one line and closes the body without ever
    reporting completion. *)
Definition unfinished_lines : iter line :=
  Yield (Json [(lit "response", JStr (lit "Hi")); (lit "done", JBool false)])
    Stop.

(** The local backend answers two lines, the second reporting completion. *)
Definition finished_lines : iter line :=
  Yield (Json [(lit "response", JStr (lit "Hi")); (lit "done", JBool false)])
    (Yield (Json [(lit "response", JStr (lit " there"));
                  (lit "done", JBool true)])
       Stop).

Definition sample_page : str :=
  lit "<html><script>var x = 1;</script><p>Hello,   world</p></html>".

(** A world in which every call succeeds; the local backend streams [lines]. *)
Definition sample_world (lines : iter line) : World :=
  {| openai_api_key := Some (lit "sk-test");
     OLLAMA_BASE_URL := lit "http://localhost:11434";
     time_time := fun n => Z.of_nat n;
     netloc_check := fun _ => None;
     requests_get := fun _ => inr (ok_response sample_page Stop);
     requests_post := fun _ _ => inr (ok_response [] lines);
     openai_create := fun _ => inr (Content (lit " done "));
     openai_create_stream :=
       fun _ => inr (Yield (Delta (Some (lit "Hi"))) Stop) |}.

(** A world in which no host can be reached. *)
Definition offline_world : World :=
  {| openai_api_key := None;
     OLLAMA_BASE_URL := lit "http://localhost:11434";
     time_time := fun n => Z.of_nat n;
     netloc_check := fun _ => None;
     requests_get := fun _ => inl (RequestException (lit "Connection refused"));
     requests_post :=
       fun _ _ => inl (RequestException (lit "Connection refused"));
     openai_create := fun _ => inl (Exception (lit "Connection error"));
     openai_create_stream := fun _ => inl (Exception (lit "Connection error")) |}.

(** ** The frames a stream can hold *)

(** A frame of the local backend's stream over [lines]. *)
Inductive ollama_frame (model source_type source : str) (lines : iter line)
  : frame -> Prop :=
| OF_chunk data text :
    iter_In (Json data) lines ->
    dict_lookup (lit "response") data = Some (JStr text) ->
    ollama_frame model source_type source lines
      (chunk_frame text (dict_get (lit "done") (JBool false) data))
| OF_done t :
    ollama_frame model source_type source lines
      (done_frame t (lit "ollama:" ++ model) source_type source)
| OF_error msg :
    ollama_frame model source_type source lines (error_frame msg).

(** A frame of the hosted backend's stream. *)
Inductive openai_frame (model source_type source : str) : frame -> Prop :=
| AF_chunk text :
    openai_frame model source_type source (chunk_frame text (JBool false))
| AF_done t :
    openai_frame model source_type source
      (done_frame t (lit "openai:" ++ model) source_type source)
| AF_error msg :
    openai_frame model source_type source (error_frame msg).

(** The local stream has at most one terminal event, and nothing after it:
    it is a run of chunks, then a terminal event or nothing. *)
Definition chunks_then_at_most_one (frames : list frame) : Prop :=
  forallb (fun f => negb (is_terminal f)) frames = true
  \/ well_terminated frames.


(** A body that closes cleanly without any line reporting completion. *)
Fixpoint never_done (lines : iter line) : bool :=
  match lines with
  | Stop => true
  | Fail _ => false
  | Yield l rest =>
      match l with
      | EmptyLine | NotJson => true
      | Json data =>
          negb (json_truthy (dict_get (lit "done") (JBool false) data))
          && match dict_lookup (lit "response") data with
             | Some (JStr _) | None => true
             | Some _ => false
             end
      | Undecodable _ | JsonOther _ => false
      end && never_done rest
  end.

(** ** Auxiliary notions for the resolver and the streams *)

(** The URL [fetch_web_content] hands to [requests.get] (lines 495-496). *)
Definition fetch_target (url : str) : str :=
  if startswith (lit "http://") url || startswith (lit "https://") url
  then url else lit "https://" ++ url.

(** A lazy sequence that first yields [pre], then goes on as [rest]. *)
Fixpoint iter_of {A : Type} (pre : list A) (rest : iter A) : iter A :=
  match pre with
  | [] => rest
  | a :: pre' => Yield a (iter_of pre' rest)
  end.

(** The lines of a body without the blank ones and the ones that are not
    JSON. *)
Fixpoint skip_noise (lines : iter line) : iter line :=
  match lines with
  | Stop => Stop
  | Fail e => Fail e
  | Yield EmptyLine rest | Yield NotJson rest => skip_noise rest
  | Yield l rest => Yield l (skip_noise rest)
  end.

(** The text of the chunk frames of a stream, in order. *)
Fixpoint chunk_texts (frames : list frame) : list str :=
  match frames with
  | [] => []
  | f :: frames' =>
      match kind_of f, dict_lookup (lit "chunk") (payload f) with
      | Chunk, Some (JStr s) => s :: chunk_texts frames'
      | _, _ => chunk_texts frames'
      end
  end.

(** The non-empty contents the hosted backend sent before its stream ended
    or broke. *)
Fixpoint contents_sent (chunks : iter delta) : list str :=
  match chunks with
  | Stop | Fail _ | Yield (BadDelta _) _ => []
  | Yield (Delta (Some (c :: s))) rest => (c :: s) :: contents_sent rest
  | Yield (Delta _) rest => contents_sent rest
  end.

(** The [response] texts the local backend sent up to and including the line
    that reported completion, or up to where its body ended or broke. *)
Fixpoint responses_sent (lines : iter line) : list str :=
  match lines with
  | Stop | Fail _ => []
  | Yield l rest =>
      match l with
      | EmptyLine | NotJson => responses_sent rest
      | Undecodable _ | JsonOther _ => []
      | Json data =>
          let after :=
            if json_truthy (dict_get (lit "done") (JBool false) data)
            then [] else responses_sent rest in
          match dict_lookup (lit "response") data with
          | Some (JStr s) => s :: after
          | Some _ => []
          | None => after
          end
      end
  end.

(** The label [process_with_ai] reports for a text source (line 315). *)
Definition source_label (text : str) : str :=
  if Nat.ltb 100 (List.length text)
  then firstn 100 text ++ lit "..." else text.

(** The state after one more clock reading. *)
Definition tick (st : St) : St :=
  {| trace := trace st; ticks := S (ticks st) |}.

(** The state after one more network call. *)
Definition logged (c : net_call) (st : St) : St :=
  {| trace := trace st ++ [c]; ticks := ticks st |}.

(** The backend call of a single-shot request. *)
Definition backend_call (w : World) (request : ProcessRequest)
    (prompt : str) (stream : bool) : net_call :=
  if is_ollama (model_provider request) then
    POST (OLLAMA_BASE_URL w ++ lit "/api/generate")
      (ollama_request (or_default (model_name request) (lit "llama2"))
         (system_content (system_prompt request)) prompt stream) 120
  else
    ChatCompletion
      (openai_request (or_default (model_name request) (lit "gpt-3.5-turbo"))
         (system_content (system_prompt request)) prompt stream).

(** The provenance tag of a request: provider, colon, model. *)
Definition provenance (request : ProcessRequest) : str :=
  if is_ollama (model_provider request)
  then lit "ollama:" ++ or_default (model_name request) (lit "llama2")
  else lit "openai:" ++ or_default (model_name request) (lit "gpt-3.5-turbo").

(** The hosted stream ran to its end: no element raised and the iterator
    did not break. *)
Fixpoint ends_cleanly (chunks : iter delta) : bool :=
  match chunks with
  | Stop => true
  | Fail _ | Yield (BadDelta _) _ => false
  | Yield (Delta _) rest => ends_cleanly rest
  end.

(** An element [<name attrs>text</name>] as it stands in a page. *)
Definition element (name : string) (attrs text : str) : str :=
  lit ("<" ++ name) ++ attrs ++ lit ">" ++ text ++ lit ("</" ++ name ++ ">").

(** The shape of the two block patterns, [<name[^>]*>.*?</name>]. *)
Definition block_re (name : string) : regex :=
  word ci ("<" ++ name)
    (Cat (StarG not_gt) (Cat (Chr (is_char ">"))
       (Cat (StarL any_char) (word ci ("</" ++ name) (Chr (is_char ">")))))).

Definition no_lt (c : char) : bool := negb (is_char "<" c).
Definition no_angle (c : char) : bool := no_lt c && not_gt c.

(** [r] matches at no position inside [p] when [p] is followed by [s]. *)
Fixpoint passes (r : regex) (p s : str) : Prop :=
  match p with
  | [] => True
  | c :: p' => re_match r (c :: p' ++ s) = None /\ passes r p' s
  end.

(** ** The model endpoints: [/health], [/show] and [/models] *)

(** The requests these endpoints send to the local backend. *)
Inductive admin_call : Type :=
| TagsGET (url : str) (timeout : Z)
| ShowPOST (url : str) (model : json) (timeout : Z).

(** What these endpoints read beyond the [World] of the core. *)
Record Backend : Type := {
  core : World;
  datetime_now : str;                      (* [datetime.now().isoformat()] *)
  py_str : json -> str;                    (* [str(v)], [v] not a string *)
  requests_get_tags : str -> exn + response;
  requests_post_show : str -> json -> exn + response
}.

(** The same error monad as the core's, over the list of requests sent. *)
Definition Adm (T : Type) : Type :=
  list admin_call -> outcome T * list admin_call.

Definition aret {T} (a : T) : Adm T := fun t => (Ok a, t).
Definition araise {T} (e : exn) : Adm T := fun t => (Raise e, t).
Definition abind {T U} (m : Adm T) (k : T -> Adm U) : Adm U :=
  fun t =>
    match m t with
    | (Ok a, t') => k a t'
    | (Raise e, t') => (Raise e, t')
    end.

(** [try: m  except <caught> as e: h e]; other exceptions pass through. *)
Definition atry {T} (m : Adm T) (caught : exn -> bool) (h : exn -> Adm T)
  : Adm T :=
  fun t =>
    match m t with
    | (Ok a, t') => (Ok a, t')
    | (Raise e, t') => if caught e then h e t' else (Raise e, t')
    end.

Notation "x <~ m ;; k" := (abind m (fun x => k))
  (at level 61, m at next level, right associativity).

Definition alog (c : admin_call) : Adm unit := fun t => (Ok tt, t ++ [c]).

Definition aworld {T} (r : exn + T) : Adm T :=
  match r with inl e => araise e | inr a => aret a end.

Definition any_exception (_ : exn) : bool := true.

(** [v == s] for a string literal [s]. *)
Definition json_is_str (s : str) (v : json) : bool :=
  match v with JStr t => str_eqb t s | _ => false end.

(** [f"{v}"]. *)
Definition py_format (b : Backend) (v : json) : str :=
  match v with JStr s => s | _ => py_str b v end.

(** [GET /health]. *)
Definition health_check (b : Backend) : Adm json :=
  let openai_available := opt_truthy (openai_api_key (core b)) in
  ollama_available <~
    atry
      (_ <~ alog (TagsGET (OLLAMA_BASE_URL (core b) ++ lit "/api/tags") 30) ;;
       response <~
         aworld (requests_get_tags b
                   (OLLAMA_BASE_URL (core b) ++ lit "/api/tags")) ;;
       aret (Z.eqb (status_code response) 200))
      any_exception (fun _ => aret false) ;;
  aret (JObj
    [(lit "status", JStr (lit "healthy"));
     (lit "timestamp", JStr (datetime_now b));
     (lit "providers", JObj
        [(lit "openai", JObj
            [(lit "available", JBool openai_available);
             (lit "configured",
              JBool (opt_truthy (openai_api_key (core b))))]);
         (lit "ollama", JObj
            [(lit "available", JBool ollama_available);
             (lit "base_url", JStr (OLLAMA_BASE_URL (core b)))])])]).

(** [POST /show]. *)
Definition show_model_details (b : Backend) (request : dict) : Adm json :=
  let provider := dict_get (lit "provider") JNull request in
  let model_name := dict_get (lit "model") JNull request in
  let detailed := dict_get (lit "detailed") (JBool false) request in
  if negb (json_truthy provider) || negb (json_truthy model_name) then
    araise (HTTPException 400 (lit "Provider and model name are required"))
  else if json_is_str (lit "ollama") provider then
    atry
      (_ <~ alog (ShowPOST (OLLAMA_BASE_URL (core b) ++ lit "/api/show")
                    model_name 30) ;;
       response <~
         aworld (requests_post_show b
                   (OLLAMA_BASE_URL (core b) ++ lit "/api/show") model_name) ;;
       if Z.eqb (status_code response) 200 then
         model_data <~ aworld (json_body response) ;;
         match model_data with
         | JObj fields =>
             if json_truthy detailed then
               aret (JObj [(lit "models", JArr [model_data])])
             else
               aret (JObj [(lit "models", JArr [JObj
                 [(lit "name", dict_get (lit "name") model_name fields);
                  (lit "size", dict_get (lit "size") JNull fields);
                  (lit "modified_at",
                   dict_get (lit "modified_at") JNull fields);
                  (lit "description",
                   JStr (lit "Ollama model: " ++ py_format b model_name))]])])
         | v =>
             araise (Exception (lit "'" ++ py_type_name v
                                ++ lit "' object has no attribute 'items'"))
         end
       else
         araise (HTTPException (status_code response)
                   (lit "Failed to get model details from Ollama")))
      is_RequestException
      (fun e =>
         araise (HTTPException 500
                   (lit "Error connecting to Ollama: " ++ exn_str e)))
  else if json_is_str (lit "openai") provider then
    aret (JObj [(lit "models", JArr [JObj
      [(lit "name", model_name);
       (lit "description",
        JStr (lit "OpenAI model: " ++ py_format b model_name));
       (lit "provider", JStr (lit "openai"))]])])
  else
    araise (HTTPException 400 (lit "Unsupported provider")).

(** The static list [GET /models] reports for the hosted provider. *)
Definition OPENAI_MODELS : list json :=
  [JObj [(lit "name", JStr (lit "gpt-3.5-turbo"));
         (lit "context_window", JNum 4096);
         (lit "description",
          JStr (lit "Fast and efficient model for most tasks"))];
   JObj [(lit "name", JStr (lit "gpt-4"));
         (lit "context_window", JNum 8192);
         (lit "description",
          JStr (lit "More capable model for complex tasks"))];
   JObj [(lit "name", JStr (lit "gpt-4-turbo-preview"));
         (lit "context_window", JNum 128000);
         (lit "description",
          JStr (lit "Latest model with extended context"))]].

(** [d[key] = v] on a key that [d] holds, else at the end. *)
Fixpoint dict_set (key : str) (v : json) (d : dict) : dict :=
  match d with
  | [] => [(key, v)]
  | (k, x) :: d' =>
      if str_eqb k key then (k, v) :: d' else (k, x) :: dict_set key v d'
  end.

(** [key in s] for strings. *)
Fixpoint contains (key s : str) : bool :=
  startswith key s ||
  match s with
  | [] => false
  | _ :: s' => contains key s'
  end.

(** [if key in detail_data: model_info[key] = detail_data[key]]. *)
Definition copy_key (key : str) (detail_data : json) (model_info : dict)
  : exn + dict :=
  match detail_data with
  | JObj d =>
      match dict_lookup key d with
      | Some v => inr (dict_set key v model_info)
      | None => inr model_info
      end
  | JArr items =>
      if existsb (json_is_str key) items
      then inl (Exception (lit "list indices must be integers or slices, not str"))
      else inr model_info
  | JStr s =>
      if contains key s
      then inl (Exception (lit "string indices must be integers"))
      else inr model_info
  | v => inl (Exception (lit "argument of type '" ++ py_type_name v
                         ++ lit "' is not iterable"))
  end.

(** The three copies in a row; an exception leaves [model_info] as it is by
    then. *)
Fixpoint copy_keys (keys : list str) (detail_data : json) (model_info : dict)
  : dict :=
  match keys with
  | [] => model_info
  | key :: keys' =>
      match copy_key key detail_data model_info with
      | inr model_info' => copy_keys keys' detail_data model_info'
      | inl _ => model_info
      end
  end.

(** The inner [try] of [list_models]: the detail lookup for one model. *)
Definition model_details (b : Backend) (name : json) (model_info : dict)
  : Adm dict :=
  atry
    (_ <~ alog (ShowPOST (OLLAMA_BASE_URL (core b) ++ lit "/api/show")
                  name 30) ;;
     detail_response <~
       aworld (requests_post_show b
                 (OLLAMA_BASE_URL (core b) ++ lit "/api/show") name) ;;
     if Z.eqb (status_code detail_response) 200 then
       detail_data <~ aworld (json_body detail_response) ;;
       aret (copy_keys [lit "model_info"; lit "details"; lit "capabilities"]
               detail_data model_info)
     else aret model_info)
    any_exception (fun _ => aret model_info).

(** The body of the [for model in ...] loop of [list_models]. *)
Definition model_entry (b : Backend) (model : json) : Adm json :=
  match model with
  | JObj m =>
      match dict_lookup (lit "name") m with
      | None => araise (Exception (lit "'name'"))
      | Some name =>
          let model_info :=
            [(lit "name", name);
             (lit "size", dict_get (lit "size") (JStr (lit "Unknown")) m);
             (lit "modified_at",
              dict_get (lit "modified_at") (JStr (lit "Unknown")) m);
             (lit "details", JObj []);
             (lit "model_info", JObj []);
             (lit "capabilities", JArr [])] in
          model_info <~ model_details b name model_info ;;
          aret (JObj model_info)
      end
  | v => araise (Exception (lit "'" ++ py_type_name v
                            ++ lit "' object is not subscriptable"))
  end.

Fixpoint collect_models (b : Backend) (models : list json)
  : Adm (list json) :=
  match models with
  | [] => aret []
  | model :: models' =>
      model_info <~ model_entry b model ;;
      ollama_models <~ collect_models b models' ;;
      aret (model_info :: ollama_models)
  end.

(** [for x in v]: what iterating a decoded value yields. *)
Definition iterate (v : json) : exn + list json :=
  match v with
  | JArr items => inr items
  | JObj fields => inr (map (fun kv => JStr (fst kv)) fields)
  | JStr s => inr (map (fun c => JStr [c]) s)
  | v => inl (Exception (lit "'" ++ py_type_name v
                         ++ lit "' object is not iterable"))
  end.

(** [GET /models]. *)
Definition list_models (b : Backend) : Adm json :=
  let openai :=
    if opt_truthy (openai_api_key (core b)) then OPENAI_MODELS else [] in
  ollama <~
    atry
      (_ <~ alog (TagsGET (OLLAMA_BASE_URL (core b) ++ lit "/api/tags") 30) ;;
       response <~
         aworld (requests_get_tags b
                   (OLLAMA_BASE_URL (core b) ++ lit "/api/tags")) ;;
       if Z.eqb (status_code response) 200 then
         data <~ aworld (json_body response) ;;
         models <~
           match data with
           | JObj d => aworld (iterate (dict_get (lit "models") (JArr []) d))
           | v => araise (Exception (lit "'" ++ py_type_name v
                                     ++ lit "' object has no attribute 'get'"))
           end ;;
         collect_models b models
       else aret [])
      any_exception (fun _ => aret []) ;;
  aret (JObj [(lit "openai", JArr openai); (lit "ollama", JArr ollama)]).

(** A listed model the loop of [list_models] can read: an object with a
    [name]. *)
Definition named_model (model : json) : bool :=
  match model with
  | JObj m => match dict_lookup (lit "name") m with Some _ => true | None => false end
  | _ => false
  end.

Definition model_name_of (model : json) : json :=
  match model with
  | JObj m => dict_get (lit "name") JNull m
  | _ => JNull
  end.

(** A backend that lists two models and knows the details of none. *)
Definition sample_backend : Backend :=
  {| core := sample_world Stop;
     datetime_now := lit "2024-01-01T00:00:00";
     py_str := fun _ => lit "?";
     requests_get_tags := fun _ =>
       inr {| status_code := 200; reason := lit "OK"; resp_url := [];
              text := [];
              json_body := inr (JObj [(lit "models", JArr
                [JObj [(lit "name", JStr (lit "llama2"))];
                 JObj [(lit "name", JStr (lit "mistral"));
                       (lit "size", JNum 4109)]])]);
              iter_lines := Stop |};
     requests_post_show := fun _ _ =>
       inr {| status_code := 404; reason := lit "Not Found"; resp_url := [];
              text := lit "model not found";
              json_body := inl (RequestException (lit "Expecting value"));
              iter_lines := Stop |} |}.

(** An entry of [GET /models] reports the listed model [model]: same name,
    and the listing's size and date, or ["Unknown"]. *)
Definition reports (model entry : json) : Prop :=
  match model, entry with
  | JObj m, JObj e =>
      dict_lookup (lit "name") e = dict_lookup (lit "name") m
      /\ dict_lookup (lit "size") e
         = Some (dict_get (lit "size") (JStr (lit "Unknown")) m)
      /\ dict_lookup (lit "modified_at") e
         = Some (dict_get (lit "modified_at") (JStr (lit "Unknown")) m)
  | _, _ => False
  end.

(** The keys the detail lookup may overwrite. *)
Definition detail_keys : list str :=
  [lit "model_info"; lit "details"; lit "capabilities"].

(** The tag listing was answered with status 200 and an object whose
    [models] is the list [models]. *)
Definition tags_listed (b : Backend) (models : list json) : Prop :=
  exists page d,
    requests_get_tags b (OLLAMA_BASE_URL (core b) ++ lit "/api/tags")
    = inr page
    /\ status_code page = 200%Z
    /\ json_body page = inr (JObj d)
    /\ dict_get (lit "models") (JArr []) d = JArr models.

(** A backend whose listing holds a model without a name after a named one. *)
Definition unnamed_backend : Backend :=
  {| core := sample_world Stop;
     datetime_now := lit "2024-01-01T00:00:00";
     py_str := fun _ => lit "?";
     requests_get_tags := fun _ =>
       inr {| status_code := 200; reason := lit "OK"; resp_url := [];
              text := [];
              json_body := inr (JObj [(lit "models", JArr
                [JObj [(lit "name", JStr (lit "llama2"))];
                 JObj [(lit "size", JNum 4109)]])]);
              iter_lines := Stop |};
     requests_post_show := requests_post_show sample_backend |}.

(** A backend that cannot be reached. *)
Definition offline_backend : Backend :=
  {| core := offline_world;
     datetime_now := lit "2024-01-01T00:00:00";
     py_str := fun _ => lit "?";
     requests_get_tags := fun _ =>
       inl (RequestException (lit "Connection refused"));
     requests_post_show := fun _ _ =>
       inl (RequestException (lit "Connection refused")) |}.

(** * Properties *)

(** ** Strings *)
Lemma str_eqb_refl (a : str) : str_eqb a a = true.
Proof.
  induction a as [|x a IH]; simpl; [reflexivity|].
  now rewrite N.eqb_refl, IH.
Qed.

Lemma str_eqb_eq (a b : str) : str_eqb a b = true <-> a = b.
Proof.
  split.
  - revert b; induction a as [|x a IH]; intros [|y b] H; simpl in H;
      try discriminate; [reflexivity|].
    apply andb_true_iff in H as [Hxy Hab].
    apply N.eqb_eq in Hxy. f_equal; auto.
  - intros ->. apply str_eqb_refl.
Qed.

Lemma lstrip_length (s : str) : List.length (lstrip s) <= List.length s.
Proof.
  induction s as [|c s IH]; simpl; [lia|].
  destruct (isspace c); simpl; lia.
Qed.

Lemma lstrip_head (s : str) : head_not_space (lstrip s) = true.
Proof.
  induction s as [|c s IH]; simpl; [reflexivity|].
  destruct (isspace c) eqn:E; [exact IH|]. simpl. now rewrite E.
Qed.

Lemma lstrip_fixed (s : str) : head_not_space s = true -> lstrip s = s.
Proof.
  destruct s as [|c s]; simpl; [reflexivity|].
  destruct (isspace c); [discriminate|reflexivity].
Qed.

Lemma lstrip_suffix (s : str) : exists a, s = a ++ lstrip s.
Proof.
  induction s as [|c s [a IH]]; simpl.
  - now exists [].
  - destruct (isspace c).
    + exists (c :: a). simpl. now f_equal.
    + now exists [].
Qed.

Lemma rstrip_prefix (s : str) : exists b, s = rstrip s ++ b.
Proof.
  unfold rstrip. destruct (lstrip_suffix (rev s)) as [a Ha].
  exists (rev a).
  rewrite <- rev_app_distr, <- Ha. now rewrite rev_involutive.
Qed.

Lemma rstrip_idem (s : str) : rstrip (rstrip s) = rstrip s.
Proof.
  unfold rstrip. rewrite rev_involutive.
  now rewrite (lstrip_fixed (lstrip (rev s)) (lstrip_head _)).
Qed.

Lemma head_not_space_prefix (a b : str) :
  head_not_space (a ++ b) = true -> head_not_space a = true.
Proof. destruct a; simpl; auto. Qed.

Lemma rstrip_head (s : str) :
  head_not_space s = true -> head_not_space (rstrip s) = true.
Proof.
  intros H. destruct (rstrip_prefix s) as [b Hb].
  rewrite Hb in H. now apply head_not_space_prefix in H.
Qed.

Lemma strip_idem (s : str) : strip (strip s) = strip s.
Proof.
  unfold strip.
  rewrite (lstrip_fixed (rstrip (lstrip s))).
  - apply rstrip_idem.
  - apply rstrip_head, lstrip_head.
Qed.

(** ** The matcher on the patterns of the sanitizer *)
Lemma is_gt_not_gt (c : char) : is_char ">" c = negb (not_gt c).
Proof. unfold not_gt. now rewrite negb_involutive. Qed.

(** [[^>]*] followed by [>]: the greedy run stops at the first [>]; giving
    characters back cannot help, none of them is a [>]. *)
Lemma greedy_then_gt (k k' : str -> option str) (t : str) :
  (forall s, k s = after_gt k' s) ->
  star_greedy not_gt t k = after_gt k' (drop_while not_gt t).
Proof.
  intros Hk. induction t as [|c t IH]; simpl; [apply Hk|].
  destruct (not_gt c) eqn:E.
  - rewrite IH. destruct (after_gt k' (drop_while not_gt t)); [reflexivity|].
    rewrite Hk. simpl. rewrite is_gt_not_gt, E. reflexivity.
  - apply Hk.
Qed.

Lemma after_gt_has_gt (k : str -> option str) (t : str) (r : str) :
  after_gt k (drop_while not_gt t) = Some r -> has_gt t = true.
Proof.
  induction t as [|c t IH]; simpl; [discriminate|].
  destruct (not_gt c) eqn:E.
  - intros H. rewrite (IH H). apply orb_true_r.
  - intros _. rewrite is_gt_not_gt, E. reflexivity.
Qed.

Lemma has_gt_after_gt (t : str) :
  has_gt t = true -> exists r, after_gt Some (drop_while not_gt t) = Some r.
Proof.
  induction t as [|c t IH]; simpl; [discriminate|].
  destruct (not_gt c) eqn:E.
  - rewrite is_gt_not_gt, E. simpl. exact IH.
  - intros _. simpl. rewrite is_gt_not_gt, E. simpl. now exists t.
Qed.

(** Where [<[^>]+>] matches. *)
Lemma tag_match_spec (c : char) (s' : str) :
  re_match tag_re (c :: s') = None <-> tag_start c s' = false.
Proof.
  unfold re_match, tag_re, tag_start. simpl matchk.
  destruct (is_char "<" c); simpl; [|tauto].
  destruct s' as [|d t]; [tauto|].
  destruct (not_gt d); simpl; [|tauto].
  rewrite (@greedy_then_gt _ Some t) by reflexivity.
  destruct (has_gt t) eqn:G.
  - destruct (has_gt_after_gt t G) as [r ->]. split; discriminate.
  - destruct (after_gt Some (drop_while not_gt t)) eqn:A; [|tauto].
    apply after_gt_has_gt in A. congruence.
Qed.

Lemma tag_match_nil : re_match tag_re [] = None.
Proof. reflexivity. Qed.

Lemma no_match_tag (s : str) : no_match tag_re s <-> tagless s = true.
Proof.
  induction s as [|c s IH]; simpl.
  - split; auto using tag_match_nil.
  - rewrite tag_match_spec, IH, andb_true_iff, negb_true_iff. tauto.
Qed.

(** A literal word consumes one character per letter. *)
Lemma word_match (cls : ascii -> char -> bool) (w : string) (tail : regex)
    (s : str) (k : str -> option str) (r : str) :
  matchk (word cls w tail) s k = Some r ->
  exists pre rest,
    s = pre ++ rest
    /\ Forall2 (fun a c => cls a c = true) (list_ascii_of_string w) pre
    /\ matchk tail rest k = Some r.
Proof.
  revert s. induction w as [|a w IH]; simpl; intros s H.
  - exists [], s. repeat split; auto.
  - destruct s as [|c s]; [discriminate|].
    destruct (cls a c) eqn:E; [|discriminate].
    destruct (IH _ H) as (pre & rest & -> & F & M).
    exists (c :: pre), rest. repeat split; auto.
Qed.

Lemma has_gt_app_r (a b : str) : has_gt b = true -> has_gt (a ++ b) = true.
Proof. unfold has_gt. rewrite existsb_app. intros ->. apply orb_true_r. Qed.

Lemma has_gt_app_l (a b : str) : has_gt a = true -> has_gt (a ++ b) = true.
Proof. unfold has_gt. rewrite existsb_app. now intros ->. Qed.

(** A block pattern [<name[^>]*>...] can only match where a tag starts. *)
Lemma block_match_tag (name : string) (body : regex) (s r : str) :
  (forall c, ci "<" c = true -> is_char "<" c = true) ->
  (exists a name', name = String a name'
                   /\ forall c, ci a c = true -> not_gt c = true) ->
  re_match
    (word ci (String "<" name)
       (Cat (StarG not_gt) (Cat (Chr (is_char ">")) body))) s = Some r ->
  exists c s', s = c :: s' /\ tag_start c s' = true.
Proof.
  intros Hlt (a & name' & -> & Ha) H.
  apply word_match in H as (pre & rest & -> & F & M).
  simpl in F. inversion F as [|x c0 l pre1 Hc0 F1]; subst.
  inversion F1 as [|x c1 l pre2 Hc1 F2]; subst.
  exists c0, (c1 :: pre2 ++ rest). split; [reflexivity|].
  unfold tag_start. rewrite (Hlt _ Hc0), (Ha _ Hc1). simpl.
  apply has_gt_app_r.
  simpl in M.
  rewrite (@greedy_then_gt _ (fun u => matchk body u Some)) in M by reflexivity.
  now apply after_gt_has_gt in M.
Qed.

Lemma ci_lt (c : char) : ci "<" c = true -> is_char "<" c = true.
Proof.
  unfold ci, is_char. change (ch "<") with 60%N.
  destruct (N.eqb c 60); [reflexivity|].
  change (N.leb 97 60) with false. change (N.eqb 60 115) with false.
  change (N.eqb 60 105) with false. change (N.eqb 60 107) with false.
  simpl. discriminate.
Qed.

Lemma ci_s_not_gt (c : char) : ci "s" c = true -> not_gt c = true.
Proof.
  unfold ci, not_gt, is_char. change (ch "s") with 115%N.
  change (ch ">") with 62%N. change (115 - 32)%N with 83%N.
  intros H. apply negb_true_iff, N.eqb_neq. intros ->.
  revert H. vm_compute. discriminate.
Qed.

Lemma script_match_tag (s r : str) :
  re_match script_re s = Some r ->
  exists c s', s = c :: s' /\ tag_start c s' = true.
Proof.
  apply (@block_match_tag "script"); [exact ci_lt|].
  exists "s"%char, "cript"%string. split; [reflexivity|exact ci_s_not_gt].
Qed.

Lemma style_match_tag (s r : str) :
  re_match style_re s = Some r ->
  exists c s', s = c :: s' /\ tag_start c s' = true.
Proof.
  apply (@block_match_tag "style"); [exact ci_lt|].
  exists "s"%char, "tyle"%string. split; [reflexivity|exact ci_s_not_gt].
Qed.

Lemma no_match_block (r : regex) (s : str) :
  (forall s0 r0, re_match r s0 = Some r0 ->
                 exists c s', s0 = c :: s' /\ tag_start c s' = true) ->
  tagless s = true -> no_match r s.
Proof.
  intros Hr. induction s as [|c s IH]; simpl; intros T.
  - split; auto. destruct (re_match r []) eqn:E; [|reflexivity].
    destruct (Hr _ _ E) as (? & ? & ? & _). discriminate.
  - apply andb_true_iff in T as [T1 T2]. split; auto.
    destruct (re_match r (c :: s)) eqn:E; [|reflexivity].
    destruct (Hr _ _ E) as (c' & s' & Heq & Ht). inversion Heq; subst.
    rewrite Ht in T1. discriminate.
Qed.

(** ** Substitution *)
Section Substitution.

Variable r : regex.

Lemma re_sub_no_match (repl s : str) :
  no_match r s -> re_sub r repl s = s.
Proof.
  unfold re_sub. induction s as [|c s IH]; simpl.
  - now intros [-> _].
  - intros [-> H]. now rewrite IH.
Qed.

(** Skipping the rest of a match is resuming after it. *)
Lemma re_sub_skip (repl : str) (k : nat) (s : str) :
  k <= List.length s ->
  re_sub_from r repl k s = re_sub r repl (skipn k s).
Proof.
  revert s. induction k as [|k IH]; intros s Hk; [reflexivity|].
  destruct s as [|c s]; simpl in *; [lia|].
  apply IH. lia.
Qed.

Lemma has_gt_skipn (k : nat) (s : str) :
  has_gt (skipn k s) = true -> has_gt s = true.
Proof.
  intros H. rewrite <- (firstn_skipn k s). now apply has_gt_app_r.
Qed.

(** Deleting matches adds no [>]. *)
Lemma re_sub_has_gt (s : str) :
  has_gt (re_sub r [] s) = true -> has_gt s = true.
Proof.
  remember (List.length s) as n eqn:Hn. revert s Hn.
  induction n as [n IH] using lt_wf_ind. intros s Hn.
  destruct s as [|c s]; unfold re_sub; cbn [re_sub_from].
  - destruct (re_match r []); simpl; discriminate.
  - assert (Hs : has_gt (c :: re_sub_from r [] 0 s) = true ->
                 has_gt (c :: s) = true).
    { simpl. destruct (is_char ">" c); [reflexivity|]. simpl.
      apply (IH (List.length s)); simpl in Hn; [lia|reflexivity]. }
    destruct (re_match r (c :: s)) as [rest|]; [|exact Hs].
    destruct (List.length (c :: s) - List.length rest) as [|k] eqn:E;
      [exact Hs|].
    cbn [app]. rewrite re_sub_skip by (cbn [List.length] in E; lia). intros H.
    apply (IH (List.length (skipn k s))) in H.
    + apply has_gt_skipn in H. simpl. rewrite H. apply orb_true_r.
    + rewrite length_skipn. simpl in Hn. lia.
    + reflexivity.
Qed.

End Substitution.

Lemma drop_while_length (p : char -> bool) (s : str) :
  List.length (drop_while p s) + span p s = List.length s.
Proof.
  induction s as [|c s IH]; simpl; [reflexivity|].
  destruct (p c); simpl; lia.
Qed.

(** After [re.sub(r'<[^>]+>', '', s)] no tag is left. *)
Lemma tag_start_sub (c : char) (s : str) :
  tag_start c s = false -> tag_start c (re_sub tag_re [] s) = false.
Proof.
  unfold tag_start. destruct (is_char "<" c); simpl; [|reflexivity].
  destruct s as [|d t]; [reflexivity|].
  intros H.
  destruct (re_sub tag_re [] (d :: t)) as [|d' t'] eqn:E; [reflexivity|].
  destruct (not_gt d) eqn:Hd.
  - simpl in H.
    assert (G : has_gt (re_sub tag_re [] (d :: t)) = false).
    { destruct (has_gt (re_sub tag_re [] (d :: t))) eqn:G; [|reflexivity].
      apply re_sub_has_gt in G. simpl in G.
      rewrite is_gt_not_gt, Hd, H in G. discriminate. }
    rewrite E in G. simpl in G. apply orb_false_iff in G as [G1 G2].
    rewrite G2. apply andb_false_r.
  - unfold re_sub in E. cbn [re_sub_from] in E.
    assert (M : re_match tag_re (d :: t) = None).
    { apply tag_match_spec. unfold tag_start.
      destruct (is_char "<" d) eqn:L; [|reflexivity].
      unfold is_char in L. apply N.eqb_eq in L. subst d.
      vm_compute in Hd. discriminate. }
    rewrite M in E. inversion E; subst. now rewrite Hd.
Qed.

Lemma tag_match_length (c : char) (s rest : str) :
  re_match tag_re (c :: s) = Some rest -> List.length rest < List.length s.
Proof.
  unfold re_match, tag_re. simpl.
  destruct (is_char "<" c); [|discriminate].
  destruct s as [|d t]; [discriminate|].
  destruct (not_gt d); [|discriminate].
  rewrite (@greedy_then_gt _ Some t) by reflexivity.
  pose proof (drop_while_length not_gt t) as L.
  destruct (drop_while not_gt t) as [|g u]; [discriminate|].
  simpl. destruct (is_char ">" g); [|discriminate].
  intros M. inversion M; subst. simpl in *. lia.
Qed.

Lemma re_sub_tag_tagless (s : str) : tagless (re_sub tag_re [] s) = true.
Proof.
  remember (List.length s) as n eqn:Hn. revert s Hn.
  induction n as [n IH] using lt_wf_ind. intros s Hn.
  destruct s as [|c s]; [reflexivity|].
  unfold re_sub. cbn [re_sub_from].
  destruct (re_match tag_re (c :: s)) as [rest|] eqn:M.
  - apply tag_match_length in M.
    destruct (List.length (c :: s) - List.length rest) as [|k] eqn:E;
      [cbn [List.length] in E; lia|].
    cbn [app]. rewrite re_sub_skip by (cbn [List.length] in E; lia).
    apply (IH (List.length (skipn k s))); [|reflexivity].
    rewrite length_skipn. simpl in Hn. lia.
  - simpl. apply andb_true_iff. split.
    + apply negb_true_iff. apply (tag_start_sub c s). now apply tag_match_spec.
    + apply (IH (List.length s)); simpl in Hn; [lia|reflexivity].
Qed.

(** ** White-space collapsing *)
Lemma greedy_all (p : char -> bool) (s : str) :
  star_greedy p s Some = Some (drop_while p s).
Proof.
  induction s as [|c s IH]; simpl; [reflexivity|].
  destruct (p c); [now rewrite IH|reflexivity].
Qed.

Lemma ws_match (c : char) (s : str) :
  re_match ws_re (c :: s) =
  if isspace c then Some (drop_while isspace s) else None.
Proof.
  unfold re_match, ws_re. simpl.
  destruct (isspace c); [apply greedy_all|reflexivity].
Qed.

Lemma re_sub_ws_collapse (s : str) :
  re_sub_from ws_re (lit " ") 0 s = collapse false s
  /\ re_sub_from ws_re (lit " ") (span isspace s) s = collapse true s.
Proof.
  induction s as [|c s [IH0 IH1]].
  - split; reflexivity.
  - assert (H0 : re_sub_from ws_re (lit " ") 0 (c :: s) = collapse false (c :: s)).
    { cbn [re_sub_from collapse]. rewrite ws_match.
      destruct (isspace c).
      - pose proof (drop_while_length isspace s) as L.
        replace (List.length (c :: s) - List.length (drop_while isspace s))
          with (S (span isspace s)) by (cbn [List.length]; lia).
        rewrite IH1. reflexivity.
      - now rewrite IH0. }
    split; [exact H0|].
    cbn [span collapse]. destruct (isspace c) eqn:E.
    + cbn [re_sub_from]. exact IH1.
    + rewrite H0. cbn [collapse]. now rewrite E.
Qed.

Lemma re_sub_ws (s : str) : re_sub ws_re (lit " ") s = collapse false s.
Proof. apply re_sub_ws_collapse. Qed.

Lemma space_not_gt (c : char) : isspace c = true -> is_char ">" c = false.
Proof.
  unfold is_char. destruct (N.eqb c (ch ">")) eqn:E; [|reflexivity].
  apply N.eqb_eq in E. subst c. vm_compute. discriminate.
Qed.

Lemma space_not_lt (c : char) : isspace c = true -> is_char "<" c = false.
Proof.
  unfold is_char. destruct (N.eqb c (ch "<")) eqn:E; [|reflexivity].
  apply N.eqb_eq in E. subst c. vm_compute. discriminate.
Qed.

Lemma collapse_has_gt (b : bool) (s : str) :
  has_gt (collapse b s) = true -> has_gt s = true.
Proof.
  revert b. induction s as [|c s IH]; intros b; simpl; [auto|].
  destruct (isspace c) eqn:E.
  - rewrite (space_not_gt c E). simpl. destruct b; simpl; apply IH.
  - simpl. destruct (is_char ">" c); [reflexivity|]. simpl. apply IH.
Qed.

Lemma collapse_tagless (b : bool) (s : str) :
  tagless s = true -> tagless (collapse b s) = true.
Proof.
  revert b. induction s as [|c s IH]; intros b; simpl; [auto|].
  intros H. apply andb_true_iff in H as [H1 H2].
  destruct (isspace c) eqn:E.
  - destruct b; [now apply IH|]. simpl. now rewrite IH.
  - simpl. rewrite (IH false H2), andb_true_r.
    apply negb_true_iff. apply negb_true_iff in H1.
    unfold tag_start in *. destruct (is_char "<" c); [|reflexivity].
    simpl in *. destruct s as [|d t]; [reflexivity|]. simpl.
    destruct (isspace d) eqn:Ed.
    + assert (Hd : not_gt d = true)
        by (unfold not_gt; now rewrite (space_not_gt d Ed)).
      rewrite Hd in H1. simpl in H1.
      destruct (has_gt (collapse true t)) eqn:G; [|reflexivity].
      apply collapse_has_gt in G. congruence.
    + destruct (not_gt d); [|reflexivity]. simpl in *.
      destruct (has_gt (collapse false t)) eqn:G; [|reflexivity].
      apply collapse_has_gt in G. congruence.
Qed.

Lemma collapse_single_spaced (b : bool) (s : str) :
  single_spaced (collapse b s) = true
  /\ (b = true -> head_not_space (collapse b s) = true).
Proof.
  revert b. induction s as [|c s IH]; intros b; simpl; [auto|].
  destruct (isspace c) eqn:E.
  - destruct (IH true) as [S1 S2]. destruct b; [auto|].
    split; [|discriminate]. simpl. now rewrite S1, S2.
  - destruct (IH false) as [S1 _]. simpl. rewrite E, S1.
    split; auto.
Qed.

Lemma single_spaced_collapse (s : str) :
  single_spaced s = true -> collapse false s = s.
Proof.
  induction s as [|c s IH]; simpl; [auto|].
  intros H. apply andb_true_iff in H as [H1 H2].
  destruct (isspace c) eqn:E.
  - apply andb_true_iff in H1 as [Hc Hh]. apply N.eqb_eq in Hc. subst c.
    f_equal. destruct s as [|d t]; [reflexivity|].
    simpl in Hh. apply negb_true_iff in Hh.
    specialize (IH H2). simpl in IH. rewrite Hh in IH.
    simpl. now rewrite Hh.
  - f_equal. auto.
Qed.

Lemma tagless_app (a b : str) :
  tagless (a ++ b) = true -> tagless a = true /\ tagless b = true.
Proof.
  induction a as [|c a IH]; simpl; [auto|].
  intros H. apply andb_true_iff in H as [H1 H2].
  destruct (IH H2) as [Ta Tb]. split; [|exact Tb].
  rewrite Ta, andb_true_r. apply negb_true_iff. apply negb_true_iff in H1.
  unfold tag_start in *. destruct (is_char "<" c); [|reflexivity]. simpl in *.
  destruct a as [|d t]; [reflexivity|]. simpl in *.
  destruct (not_gt d); [|reflexivity]. simpl in *.
  destruct (has_gt t) eqn:G; [|reflexivity].
  now rewrite (has_gt_app_l t b G) in H1.
Qed.

Lemma single_spaced_app (a b : str) :
  single_spaced (a ++ b) = true ->
  single_spaced a = true /\ single_spaced b = true.
Proof.
  induction a as [|c a IH]; simpl; [auto|].
  intros H. apply andb_true_iff in H as [H1 H2].
  destruct (IH H2) as [Sa Sb]. split; [|exact Sb].
  rewrite Sa, andb_true_r. destruct (isspace c); [|reflexivity].
  apply andb_true_iff in H1 as [Hc Hh]. rewrite Hc. simpl.
  now apply head_not_space_prefix in Hh.
Qed.

Lemma strip_parts (s : str) : exists a b, s = a ++ strip s ++ b.
Proof.
  unfold strip. destruct (lstrip_suffix s) as [a Ha].
  destruct (rstrip_prefix (lstrip s)) as [b Hb].
  exists a, b. now rewrite <- Hb.
Qed.

Lemma strip_tagless (s : str) : tagless s = true -> tagless (strip s) = true.
Proof.
  destruct (strip_parts s) as (a & b & H). intros T. rewrite H in T.
  apply tagless_app in T as [_ T]. now apply tagless_app in T as [T _].
Qed.

Lemma strip_single_spaced (s : str) :
  single_spaced s = true -> single_spaced (strip s) = true.
Proof.
  destruct (strip_parts s) as (a & b & H). intros T. rewrite H in T.
  apply single_spaced_app in T as [_ T].
  now apply single_spaced_app in T as [T _].
Qed.

(** What the sanitizer returns: no tag, single spaces, stripped. *)
Lemma sanitize_normal (s : str) :
  tagless (sanitize s) = true
  /\ single_spaced (sanitize s) = true
  /\ strip (sanitize s) = sanitize s.
Proof.
  unfold sanitize. cbv zeta.
  set (t := re_sub tag_re [] _).
  rewrite re_sub_ws.
  repeat split.
  - apply strip_tagless, collapse_tagless. apply re_sub_tag_tagless.
  - apply strip_single_spaced. apply (collapse_single_spaced false t).
  - apply strip_idem.
Qed.

Example sanitize_script :
  sanitize (lit "<p>Hi</p><SCRIPT type='x'>alert(1)</script>  there
 <b>you</b> ") = lit "Hi there you".
Proof. vm_compute. reflexivity. Qed.

(** C7. The sanitizer of [fetch_web_content] (strip script and style blocks,
    strip the remaining tags, collapse white-space runs to single spaces,
    trim) is idempotent: on every string, applying it twice gives what
    applying it once gives. *)
Theorem sanitize_idempotent (s : str) : sanitize (sanitize s) = sanitize s.
Proof.
  destruct (sanitize_normal s) as (T & S & P).
  set (y := sanitize s) in *.
  unfold sanitize at 1. cbv zeta.
  rewrite (re_sub_no_match script_re []) by
    (apply no_match_block; [exact script_match_tag|exact T]).
  rewrite (re_sub_no_match style_re []) by
    (apply no_match_block; [exact style_match_tag|exact T]).
  rewrite (re_sub_no_match tag_re []) by (now apply no_match_tag).
  rewrite re_sub_ws, (single_spaced_collapse y S). exact P.
Qed.

(** ** The content resolver *)

Lemma find_char_none (c : char) (s : str) :
  find_char c s = None <-> ~ In c s.
Proof.
  induction s as [|x s IH]; simpl; [tauto|].
  destruct (N.eqb x c) eqn:E.
  - apply N.eqb_eq in E. split; [discriminate|]. intros H. exfalso. auto.
  - apply N.eqb_neq in E. destruct (find_char c s).
    + split; [discriminate|]. intros H.
      assert (N : ~ In c s) by tauto. apply IH in N. discriminate.
    + split; [|reflexivity]. intros _ [H|H]; [auto|]. now apply IH.
Qed.

Lemma lstrip_c0_incl (s : str) (c : char) : In c (lstrip_c0 s) -> In c s.
Proof.
  induction s as [|x s IH]; simpl; [auto|].
  destruct (x <=? 32)%N; simpl; auto.
Qed.

(** A URL without a colon has neither scheme nor netloc unless it starts
    with [//]; either way its scheme is empty. *)
Lemma split_scheme_no_colon (url : str) :
  find_char (ch ":") url = None -> split_scheme url = ([], url).
Proof. unfold split_scheme. now intros ->. Qed.

Lemma urlparse_no_colon (w : World) (url : str) (st : St) :
  find_char (ch ":") url = None ->
  match urlparse w url st with
  | (Ok (scheme, _), st') => scheme = [] /\ st' = st
  | (Raise (ValueError _), st') => st' = st
  | _ => False
  end.
Proof.
  intros H. unfold urlparse.
  rewrite split_scheme_no_colon.
  - destruct (startswith (lit "//") _); [|simpl; auto].
    destruct (netloc_check w _); simpl; auto.
  - apply find_char_none. intros Hin. apply filter_In in Hin as [Hin _].
    apply lstrip_c0_incl in Hin. now apply find_char_none in H.
Qed.

(** A URL without a colon is refused before anything is fetched. *)
Lemma fetch_no_colon (w : World) (url : str) (st : St) :
  find_char (ch ":") url = None ->
  exists detail,
    fetch_web_content w url st = (Raise (HTTPException 400 detail), st).
Proof.
  intros H. pose proof (urlparse_no_colon w url st H) as P.
  unfold fetch_web_content, try_except, bind.
  destruct (urlparse w url st) as [[[scheme netloc]|e] st'].
  - destruct P as [-> ->]. simpl. eexists. reflexivity.
  - destruct e; try contradiction. subst st'. simpl. eexists. reflexivity.
Qed.

(** C1. A bare host and path is not given a scheme: the URL
    ["example.com/page"] fails validation, in every world, with status 400
    and the message "Invalid URL format", and nothing is fetched.  The
    [https://] prefix is only ever added to a URL that already has a scheme. *)
Theorem fetch_web_content_bare_host_rejected (w : World) (st : St) :
  fetch_web_content w (lit "example.com/page") st =
  (Raise (HTTPException 400 (lit "Error processing URL: Invalid URL format")),
   st).
Proof. reflexivity. Qed.

(** Whatever [fetch_web_content] raises is an [HTTPException] with status 400. *)
Lemma fetch_web_content_raises_400 (w : World) (url : str) (st st' : St) (e : exn) :
  fetch_web_content w url st = (Raise e, st') ->
  exists detail, e = HTTPException 400 detail.
Proof.
  unfold fetch_web_content, try_except.
  destruct (bind _ _ st) as [[a|e0] st0]; [discriminate|].
  destruct (is_RequestException e0); unfold raise; intros H; inversion H; eauto.
Qed.

Lemma truncate_length (c : str) :
  List.length (truncate c) <= 8000 + List.length truncation_marker.
Proof.
  unfold truncate. destruct (Nat.ltb 8000 (List.length c)) eqn:E.
  - rewrite length_app. pose proof (firstn_le_length 8000 c). lia.
  - apply Nat.ltb_ge in E. lia.
Qed.

Lemma truncate_short (c : str) :
  List.length c <= 8000 -> truncate c = c.
Proof.
  unfold truncate. intros H. apply Nat.ltb_ge in H. now rewrite H.
Qed.

(** What a successful [fetch_web_content] returns: one page was fetched, and
    the body is its sanitized text, cut if it is too long. *)
Lemma fetch_web_content_ok (w : World) (url : str) (st st' : St) (body : str) :
  fetch_web_content w url st = (Ok body, st') ->
  exists fetched page,
    requests_get w fetched = inr page
    /\ trace st' = trace st ++ [GET fetched USER_AGENT 30]
    /\ body = truncate (sanitize (text page)).
Proof.
  unfold fetch_web_content, try_except, bind.
  destruct (urlparse w url st) as [[[scheme netloc]|e] st1] eqn:U.
  2:{ destruct (is_RequestException e); discriminate. }
  assert (st1 = st) as ->.
  { unfold urlparse in U. destruct (split_scheme _) as [sc u].
    destruct (startswith (lit "//") u).
    - destruct (netloc_check w _); inversion U; reflexivity.
    - inversion U; reflexivity. }
  cbn [fst snd].
  destruct (negb (truthy scheme) || negb (truthy netloc)).
  { simpl. discriminate. }
  cbn [ret log trace ticks].
  set (u := if startswith (lit "http://") url || startswith (lit "https://") url
            then url else lit "https://" ++ url).
  destruct (requests_get w u) as [e|page] eqn:G; cbn [of_world raise ret].
  { destruct (is_RequestException e); discriminate. }
  unfold raise_for_status.
  destruct ((400 <=? status_code page) && (status_code page <? 500))%Z.
  { simpl. discriminate. }
  destruct ((500 <=? status_code page) && (status_code page <? 600))%Z.
  { simpl. discriminate. }
  cbn [ret]. intros H. inversion H; subst.
  exists u, page. auto.
Qed.

(** C6. A body resolved from a URL is never longer than 8000 characters plus
    the truncation marker, and when the sanitized text of the fetched page is
    under 8000 characters the body is that text, uncut. *)
Theorem fetch_web_content_length_cap
    (w : World) (url : str) (st st' : St) (body : str) :
  fetch_web_content w url st = (Ok body, st') ->
  List.length body <= 8000 + List.length truncation_marker
  /\ exists fetched page,
       requests_get w fetched = inr page
       /\ trace st' = trace st ++ [GET fetched USER_AGENT 30]
       /\ (List.length (sanitize (text page)) < 8000 ->
           body = sanitize (text page)).
Proof.
  intros H. apply fetch_web_content_ok in H as (u & page & G & T & ->).
  split; [apply truncate_length|].
  exists u, page. repeat split; [exact G|exact T|].
  intros L. apply truncate_short. lia.
Qed.

Lemma fetch_web_content_length_cap_witness :
  List.length (lit "Hello, world") <= 8000 + List.length truncation_marker
  /\ exists fetched page,
       requests_get (sample_world Stop) fetched = inr page
       /\ [GET (lit "https://example.com/page") USER_AGENT 30]
          = trace st0 ++ [GET fetched USER_AGENT 30]
       /\ (List.length (sanitize (text page)) < 8000 ->
           lit "Hello, world" = sanitize (text page)).
Proof.
  apply (@fetch_web_content_length_cap (sample_world Stop)
           (lit "https://example.com/page") st0
           {| trace := [GET (lit "https://example.com/page") USER_AGENT 30];
              ticks := 0 |}).
  vm_compute. reflexivity.
Defined.

(** ** The endpoints *)

Lemma now_trace (w : World) (st : St) :
  now w st = (Ok (time_time w (ticks st)),
              {| trace := trace st; ticks := S (ticks st) |}).
Proof. reflexivity. Qed.



(** C2. The failures of [POST /process] on bad input do not reach the caller
    with a 4xx status.  A request with neither text nor url, in every world,
    and a request whose URL cannot be reached, both end in an
    [HTTPException] with status 500 that wraps the 400 raised inside. *)
Theorem process_with_ai_input_failures_are_500 :
  (forall (w : World) (st : St),
     process_with_ai w default_request st =
     (Raise (HTTPException 500
        (lit "AI processing failed: 400: Either 'text' or 'url' must be provided for processing.")),
      {| trace := trace st; ticks := S (S (ticks st)) |}))
  /\ process_with_ai offline_world
       (with_url (Some (lit "https://example.com/page")) default_request) st0 =
     (Raise (HTTPException 500
        (lit "AI processing failed: 400: Failed to fetch URL: Connection refused")),
      {| trace := [GET (lit "https://example.com/page") USER_AGENT 30];
         ticks := 2 |}).
Proof. split; [intros w st|]; reflexivity. Qed.

Lemma determine_source_missing (w : World) (request : ProcessRequest) (st : St) :
  opt_truthy (req_url request) = false ->
  opt_truthy (req_text request) = false ->
  determine_source w request st =
  (Raise (HTTPException 400
            (lit "Either 'text' or 'url' must be provided for processing.")),
   st).
Proof. unfold determine_source. now intros -> ->. Qed.

(** C5. A request whose text and url are both absent or empty is rejected:
    resolving its source raises the 400 "Either 'text' or 'url' must be
    provided", both endpoints fail, and no network call is made, neither a
    fetch nor a backend call. *)
Theorem missing_input_rejected_before_network
    (w : World) (request : ProcessRequest) (st : St) :
  opt_truthy (req_url request) = false ->
  opt_truthy (req_text request) = false ->
  determine_source w request st =
    (Raise (HTTPException 400
              (lit "Either 'text' or 'url' must be provided for processing.")),
     st)
  /\ (exists e, fst (process_with_ai w request st) = Raise e)
  /\ trace (snd (process_with_ai w request st)) = trace st
  /\ (exists e, fst (process_with_ai_stream w request st) = Raise e)
  /\ trace (snd (process_with_ai_stream w request st)) = trace st.
Proof.
  intros Hu Ht.
  unfold process_with_ai, process_with_ai_stream, bind, try_except.
  rewrite now_trace, !determine_source_missing by assumption.
  cbn. repeat split; eauto.
Qed.

Lemma missing_input_rejected_before_network_witness :
  determine_source offline_world
    (with_url (Some []) default_request) st0 =
    (Raise (HTTPException 400
              (lit "Either 'text' or 'url' must be provided for processing.")),
     st0)
  /\ (exists e, fst (process_with_ai offline_world
                       (with_url (Some []) default_request) st0) = Raise e)
  /\ trace (snd (process_with_ai offline_world
                   (with_url (Some []) default_request) st0)) = trace st0
  /\ (exists e, fst (process_with_ai_stream offline_world
                       (with_url (Some []) default_request) st0) = Raise e)
  /\ trace (snd (process_with_ai_stream offline_world
                   (with_url (Some []) default_request) st0)) = trace st0.
Proof.
  apply (@missing_input_rejected_before_network offline_world
           (with_url (Some []) default_request) st0); reflexivity.
Defined.

(** ** The prompt builder *)

(** [build_prompt] is one comparison and one formatted string over its two
    parameters; it calls nothing and names no global, so it is embedded as a
    plain function outside the effect monad.  What can be proved of it is how
    it uses its arguments and what the endpoints do with its result. *)

(** The source kind enters the prompt only through the test [== "url"]. *)
Lemma build_prompt_kind (body kind1 kind2 : str) :
  str_eqb kind1 (lit "url") = str_eqb kind2 (lit "url") ->
  build_prompt body kind1 = build_prompt body kind2.
Proof. unfold build_prompt. now intros ->. Qed.

(** The prompt [POST /process] hands to the provider is [build_prompt] of the
    resolved body and source kind, whatever the world and the other fields of
    the request. *)
Lemma process_with_ai_prompt_sent
    (w : World) (request : ProcessRequest) (st st1 : St)
    (src : str * str * str) :
  determine_source w request {| trace := trace st; ticks := S (ticks st) |}
    = (Ok src, st1) ->
  trace (snd (process_with_ai w request st)) =
  trace (snd ((if is_ollama (model_provider request)
               then call_ollama else call_openai)
                w (build_prompt (snd (fst src)) (fst (fst src)))
                (model_name request) (system_prompt request) st1)).
Proof.
  intros D. unfold process_with_ai, bind at 1, try_except. rewrite now_trace.
  unfold bind at 1. rewrite D. destruct src as [[kind body] label].
  cbn [fst snd]. unfold bind, ret, processing_failed, raise.
  destruct (is_ollama (model_provider request)).
  - destruct (call_ollama w _ _ _ st1) as [[r|e] st2]; reflexivity.
  - destruct (call_openai w _ _ _ st1) as [[r|e] st2]; reflexivity.
Qed.

(** ** Streams *)

Lemma kind_of_chunk (text : str) (done : json) :
  kind_of (chunk_frame text done) = Chunk.
Proof. reflexivity. Qed.

Lemma kind_of_done (t : Z) (model_used source_type source : str) :
  kind_of (done_frame t model_used source_type source) = Done.
Proof. reflexivity. Qed.

Lemma kind_of_error (msg : str) : kind_of (error_frame msg) = Error.
Proof. reflexivity. Qed.

Lemma kind_of_ollama_error (e : exn) : kind_of (ollama_stream_error e) = Error.
Proof. unfold ollama_stream_error. now destruct (is_RequestException e). Qed.

Lemma ollama_frame_later model source_type source l rest f :
  ollama_frame model source_type source rest f ->
  ollama_frame model source_type source (Yield l rest) f.
Proof.
  intros [data text Hin Hl|t|msg]; [|constructor|constructor].
  apply OF_chunk; [now right|exact Hl].
Qed.

Lemma ollama_stream_error_frame model source_type source lines e :
  ollama_frame model source_type source lines (ollama_stream_error e).
Proof.
  unfold ollama_stream_error. destruct (is_RequestException e); constructor.
Qed.

Lemma ollama_lines_frames (w : World) (model source_type source : str)
    (start_time : Z) (lines : iter line) :
  forall (full_response : str) (st : St) (f : frame),
    In f (fst (ollama_lines w model source_type source start_time
                 full_response lines st)) ->
    ollama_frame model source_type source lines f.
Proof.
  induction lines as [|l rest IH|e]; intros full st f; cbn [ollama_lines].
  - intros [].
  - destruct l as [|msg| |msg|data].
    + intros H. apply ollama_frame_later. eapply IH, H.
    + intros [<-|[]]. apply ollama_stream_error_frame.
    + intros H. apply ollama_frame_later. eapply IH, H.
    + intros [<-|[]]. apply ollama_stream_error_frame.
    + destruct (dict_lookup (lit "response") data) as [v|] eqn:R.
      * destruct v as [|b|n|chunk|items|fields];
          try (intros [<-|[]]; apply ollama_stream_error_frame).
        destruct (json_truthy _).
        -- cbn. intros [<-|[<-|[]]].
           ++ apply OF_chunk; [now left|exact R].
           ++ constructor.
        -- destruct (ollama_lines _ _ _ _ _ _ rest st) as [frames st'] eqn:E.
           cbn. intros [<-|H].
           ++ apply OF_chunk; [now left|exact R].
           ++ apply ollama_frame_later. eapply IH. rewrite E. exact H.
      * destruct (json_truthy _).
        -- cbn. intros [<-|[]]. constructor.
        -- intros H. apply ollama_frame_later. eapply IH, H.
  - intros [<-|[]]. apply ollama_stream_error_frame.
Qed.

Lemma stream_ollama_frames (w : World) (prompt : str) (model_name : option str)
    (source_type source : str) (start_time : Z) (system_prompt : option str)
    (st : St) (f : frame) :
  In f (fst (stream_ollama_response w prompt model_name source_type source
               start_time system_prompt st)) ->
  kind_of f = Error
  \/ exists page,
       requests_post w (OLLAMA_BASE_URL w ++ lit "/api/generate")
         (ollama_request (or_default model_name (lit "llama2"))
            (system_content system_prompt) prompt true) = inr page
       /\ ollama_frame (or_default model_name (lit "llama2"))
            source_type source (iter_lines page) f.
Proof.
  unfold stream_ollama_response.
  destruct (requests_post w _ _) as [e|page].
  - intros [<-|[]]. left. apply kind_of_ollama_error.
  - destruct (negb (Z.eqb (status_code page) 200)).
    + intros [<-|[]]. now left.
    + intros H. right. exists page. split; [reflexivity|].
      eapply ollama_lines_frames, H.
Qed.

Lemma openai_chunks_frames (w : World) (model source_type source : str)
    (start_time : Z) (chunks : iter delta) :
  forall (full_response : str) (st : St) (f : frame),
    In f (fst (openai_chunks w model source_type source start_time
                 full_response chunks st)) ->
    openai_frame model source_type source f.
Proof.
  induction chunks as [|d rest IH|e]; intros full st f; cbn [openai_chunks].
  - intros [<-|[]]. constructor.
  - destruct d as [c|msg].
    + destruct (opt_truthy c).
      * destruct (openai_chunks _ _ _ _ _ _ rest st) as [frames st'] eqn:E.
        cbn. intros [<-|H]; [constructor|].
        eapply IH. rewrite E. exact H.
      * intros H. eapply IH, H.
    + intros [<-|[]]. constructor.
  - intros [<-|[]]. constructor.
Qed.

Lemma stream_openai_frames (w : World) (prompt : str) (model_name : option str)
    (source_type source : str) (start_time : Z) (system_prompt : option str)
    (st : St) (f : frame) :
  In f (fst (stream_openai_response w prompt model_name source_type source
               start_time system_prompt st)) ->
  openai_frame (or_default model_name (lit "gpt-3.5-turbo"))
    source_type source f.
Proof.
  unfold stream_openai_response.
  destruct (negb (opt_truthy (openai_api_key w))).
  - intros [<-|[]]. constructor.
  - destruct (openai_create_stream w _) as [e|chunks].
    + intros [<-|[]]. constructor.
    + apply openai_chunks_frames.
Qed.

(** *** Termination of a stream *)
Lemma well_terminated_one (f : frame) :
  is_terminal f = true -> well_terminated [f].
Proof. intros H. exists [], f. auto. Qed.

Lemma well_terminated_cons (f : frame) (frames : list frame) :
  is_terminal f = false -> well_terminated frames ->
  well_terminated (f :: frames).
Proof.
  intros Hf (chunks & last & -> & Hl & Hc).
  exists (f :: chunks), last. repeat split; auto.
  simpl. now rewrite Hf, Hc.
Qed.

Lemma is_terminal_chunk (text : str) (done : json) :
  is_terminal (chunk_frame text done) = false.
Proof. reflexivity. Qed.

(** The hosted stream always ends with exactly one terminal event. *)
Lemma openai_chunks_well_terminated (w : World)
    (model source_type source : str) (start_time : Z) (chunks : iter delta) :
  forall (full_response : str) (st : St),
    well_terminated
      (fst (openai_chunks w model source_type source start_time
              full_response chunks st)).
Proof.
  induction chunks as [|d rest IH|e]; intros full st; cbn [openai_chunks].
  - now apply well_terminated_one.
  - destruct d as [c|msg]; [|now apply well_terminated_one].
    destruct (opt_truthy c); [|apply IH].
    specialize (IH (full ++ match c with Some s => s | None => [] end) st).
    destruct (openai_chunks _ _ _ _ _ _ rest st) as [frames st'].
    cbn in *. apply well_terminated_cons; [reflexivity|exact IH].
  - now apply well_terminated_one.
Qed.

Lemma stream_openai_well_terminated (w : World) (prompt : str)
    (model_name : option str) (source_type source : str) (start_time : Z)
    (system_prompt : option str) (st : St) :
  well_terminated
    (fst (stream_openai_response w prompt model_name source_type source
            start_time system_prompt st)).
Proof.
  unfold stream_openai_response.
  destruct (negb (opt_truthy (openai_api_key w)));
    [now apply well_terminated_one|].
  destruct (openai_create_stream w _) as [e|chunks];
    [now apply well_terminated_one|].
  apply openai_chunks_well_terminated.
Qed.

Lemma chunks_then_cons (f : frame) (frames : list frame) :
  is_terminal f = false -> chunks_then_at_most_one frames ->
  chunks_then_at_most_one (f :: frames).
Proof.
  intros Hf [H|H].
  - left. simpl. now rewrite Hf, H.
  - right. now apply well_terminated_cons.
Qed.

Lemma is_terminal_ollama_error (e : exn) :
  is_terminal (ollama_stream_error e) = true.
Proof. unfold is_terminal. now rewrite kind_of_ollama_error. Qed.

Lemma ollama_lines_terminal (w : World) (model source_type source : str)
    (start_time : Z) (lines : iter line) :
  forall (full_response : str) (st : St),
    chunks_then_at_most_one
      (fst (ollama_lines w model source_type source start_time
              full_response lines st)).
Proof.
  induction lines as [|l rest IH|e]; intros full st; cbn [ollama_lines].
  - now left.
  - destruct l as [|msg| |msg|data]; try apply IH;
      try (right; apply well_terminated_one, is_terminal_ollama_error).
    destruct (dict_lookup (lit "response") data) as [v|].
    + destruct v as [|b|n|chunk|items|fields];
        try (right; apply well_terminated_one, is_terminal_ollama_error).
      destruct (json_truthy _).
      * cbn. right. apply well_terminated_cons; [reflexivity|].
        now apply well_terminated_one.
      * specialize (IH (full ++ chunk) st).
        destruct (ollama_lines _ _ _ _ _ _ rest st) as [frames st'].
        cbn in *. now apply chunks_then_cons.
    + destruct (json_truthy _); [|apply IH].
      right. now apply well_terminated_one.
  - right. apply well_terminated_one, is_terminal_ollama_error.
Qed.

Lemma stream_ollama_terminal (w : World) (prompt : str)
    (model_name : option str) (source_type source : str) (start_time : Z)
    (system_prompt : option str) (st : St) :
  chunks_then_at_most_one
    (fst (stream_ollama_response w prompt model_name source_type source
            start_time system_prompt st)).
Proof.
  unfold stream_ollama_response.
  destruct (requests_post w _ _) as [e|page].
  - right. apply well_terminated_one, is_terminal_ollama_error.
  - destruct (negb (Z.eqb (status_code page) 200)).
    + right. now apply well_terminated_one.
    + apply ollama_lines_terminal.
Qed.

Lemma well_terminated_count (frames : list frame) :
  well_terminated frames -> count_terminal frames = 1.
Proof.
  intros (chunks & last & -> & Hl & Hc). unfold count_terminal.
  rewrite filter_app, length_app. simpl. rewrite Hl. simpl.
  replace (filter is_terminal chunks) with (@nil frame); [reflexivity|].
  induction chunks as [|f chunks IH]; [reflexivity|].
  simpl in *. apply andb_true_iff in Hc as [Hf Hc].
  apply negb_true_iff in Hf. rewrite Hf. auto.
Qed.

(** Whenever the body closes cleanly and no line has reported completion,
    the local stream holds chunks only. *)
Lemma ollama_lines_never_done (w : World) (model source_type source : str)
    (start_time : Z) (lines : iter line) :
  forall (full_response : str) (st : St),
    never_done lines = true ->
    count_terminal
      (fst (ollama_lines w model source_type source start_time
              full_response lines st)) = 0.
Proof.
  induction lines as [|l rest IH|e]; intros full st; cbn [ollama_lines never_done];
    [reflexivity| |discriminate].
  intros H. apply andb_true_iff in H as [Hl Hr].
  destruct l as [|msg| |msg|data]; try discriminate; try (now apply IH).
  apply andb_true_iff in Hl as [Hd Hresp]. apply negb_true_iff in Hd.
  rewrite Hd.
  destruct (dict_lookup (lit "response") data) as [v|]; [|now apply IH].
  destruct v as [|b|n|chunk|items|fields]; try discriminate.
  specialize (IH (full ++ chunk) st Hr).
  destruct (ollama_lines _ _ _ _ _ _ rest st) as [frames st'].
  exact IH.
Qed.

(** C3. The local backend's stream can end with no terminal event.  When the
    body answers one line that does not report completion and then closes,
    the generator yields that one chunk and stops: no Done, no Error.  (The
    hosted stream always ends with exactly one terminal event, see
    [stream_openai_well_terminated]; the local one never has more than one,
    see [stream_ollama_terminal].) *)
Theorem stream_ollama_unfinished_has_no_terminal
    (prompt : str) (model_name : option str) (source_type source : str)
    (start_time : Z) (system_prompt : option str) (st : St) :
  let frames :=
    fst (stream_ollama_response (sample_world unfinished_lines) prompt
           model_name source_type source start_time system_prompt st) in
  frames = [chunk_frame (lit "Hi") (JBool false)]
  /\ count_terminal frames = 0
  /\ ~ well_terminated frames.
Proof.
  cbv zeta.
  assert (E : fst (stream_ollama_response (sample_world unfinished_lines) prompt
                     model_name source_type source start_time system_prompt st)
              = [chunk_frame (lit "Hi") (JBool false)]) by reflexivity.
  rewrite E. repeat split.
  intros H. apply well_terminated_count in H. discriminate.
Qed.

(** *** The [done] field of a chunk frame *)




(** ** Precedence of the URL *)








(** The sample request with both fields set does resolve, from the page. *)
Example url_takes_precedence_run :
  fst (process_with_ai (sample_world Stop)
         (with_text (Some (lit "ignored"))
            (with_url (Some (lit "https://example.com/page")) default_request))
         st0)
  = Ok {| success := true; result := lit "done";
          model_used := lit "openai:gpt-3.5-turbo";
          processing_time := 1;
          source_type := lit "url";
          source := lit "https://example.com/page" |}.
Proof. vm_compute. reflexivity. Qed.

(** ** The system prompt *)

Lemma call_openai_request (w : World) (prompt : str)
    (model_name system_prompt : option str) (st : St) :
  opt_truthy (openai_api_key w) = true ->
  trace (snd (call_openai w prompt model_name system_prompt st)) =
  trace st ++ [ChatCompletion
                 (openai_request (or_default model_name (lit "gpt-3.5-turbo"))
                    (system_content system_prompt) prompt false)].
Proof.
  intros K. unfold call_openai. rewrite K. cbn [negb]. unfold bind, log.
  destruct (openai_create w _) as [e|[c|msg]]; reflexivity.
Qed.

Lemma call_ollama_request (w : World) (prompt : str)
    (model_name system_prompt : option str) (st : St) :
  trace (snd (call_ollama w prompt model_name system_prompt st)) =
  trace st ++ [POST (OLLAMA_BASE_URL w ++ lit "/api/generate")
                 (ollama_request (or_default model_name (lit "llama2"))
                    (system_content system_prompt) prompt false) 120].
Proof.
  unfold call_ollama, try_except, bind at 1, log. unfold bind at 1.
  destruct (requests_post w _ _) as [e|page]; cbn [of_world raise ret].
  - destruct (is_RequestException e); reflexivity.
  - unfold bind at 1.
    destruct (negb (Z.eqb (status_code page) 200)); cbn [raise ret].
    + reflexivity.
    + unfold bind. destruct (json_body page) as [e|data]; cbn [of_world raise ret].
      * destruct (is_RequestException e); reflexivity.
      * unfold response_text_of.
        destruct data as [|b|n|s|items|fields]; try reflexivity.
        destruct (dict_get _ _ fields); reflexivity.
Qed.

Lemma ollama_lines_trace (w : World) (model source_type source : str)
    (start_time : Z) (lines : iter line) :
  forall (full_response : str) (st : St),
    trace (snd (ollama_lines w model source_type source start_time
                  full_response lines st)) = trace st.
Proof.
  induction lines as [|l rest IH|e]; intros full st; cbn [ollama_lines];
    try reflexivity.
  destruct l as [|msg| |msg|data]; try apply IH; try reflexivity.
  destruct (dict_lookup (lit "response") data) as [v|].
  - destruct v as [|b|n|chunk|items|fields]; try reflexivity.
    destruct (json_truthy _); [reflexivity|].
    specialize (IH (full ++ chunk) st).
    destruct (ollama_lines _ _ _ _ _ _ rest st) as [frames st'].
    exact IH.
  - destruct (json_truthy _); [reflexivity|apply IH].
Qed.

Lemma stream_ollama_request (w : World) (prompt : str)
    (model_name : option str) (source_type source : str) (start_time : Z)
    (system_prompt : option str) (st : St) :
  trace (snd (stream_ollama_response w prompt model_name source_type source
                start_time system_prompt st)) =
  trace st ++ [POST (OLLAMA_BASE_URL w ++ lit "/api/generate")
                 (ollama_request (or_default model_name (lit "llama2"))
                    (system_content system_prompt) prompt true) 120].
Proof.
  unfold stream_ollama_response.
  destruct (requests_post w _ _) as [e|page]; [reflexivity|].
  destruct (negb (Z.eqb (status_code page) 200)); [reflexivity|].
  now rewrite ollama_lines_trace.
Qed.

Lemma openai_chunks_trace (w : World) (model source_type source : str)
    (start_time : Z) (chunks : iter delta) :
  forall (full_response : str) (st : St),
    trace (snd (openai_chunks w model source_type source start_time
                  full_response chunks st)) = trace st.
Proof.
  induction chunks as [|d rest IH|e]; intros full st; cbn [openai_chunks];
    try reflexivity.
  destruct d as [c|msg]; [|reflexivity].
  destruct (opt_truthy c); [|apply IH].
  specialize (IH (full ++ match c with Some s => s | None => [] end) st).
  destruct (openai_chunks _ _ _ _ _ _ rest st) as [frames st'].
  exact IH.
Qed.

Lemma stream_openai_request (w : World) (prompt : str)
    (model_name : option str) (source_type source : str) (start_time : Z)
    (system_prompt : option str) (st : St) :
  opt_truthy (openai_api_key w) = true ->
  trace (snd (stream_openai_response w prompt model_name source_type source
                start_time system_prompt st)) =
  trace st ++ [ChatCompletion
                 (openai_request (or_default model_name (lit "gpt-3.5-turbo"))
                    (system_content system_prompt) prompt true)].
Proof.
  intros K. unfold stream_openai_response. rewrite K. cbn [negb].
  destruct (openai_create_stream w _) as [e|chunks]; [reflexivity|].
  now rewrite openai_chunks_trace.
Qed.

(** C10. An empty [system_prompt] is an absent one.  On every call path
    (both providers, single-shot and streaming, and so both endpoints) the
    call with [system_prompt = ""] is the call with no [system_prompt]; the
    request sent to the backend carries [system_content system_prompt], which
    is the fixed default instruction for [""] and for [None] and is the
    caller's text for a non-empty one. *)
Theorem empty_system_prompt_is_default
    (w : World) (prompt : str) (model_name : option str)
    (source_type source : str) (start_time : Z) (request : ProcessRequest)
    (st : St) (c : char) (s : str) (system_prompt : option str) :
  (system_content (Some []) = DEFAULT_SYSTEM_PROMPT
   /\ system_content None = DEFAULT_SYSTEM_PROMPT
   /\ system_content (Some (c :: s)) = c :: s)
  /\ (call_openai w prompt model_name (Some []) st
      = call_openai w prompt model_name None st
      /\ call_ollama w prompt model_name (Some []) st
         = call_ollama w prompt model_name None st
      /\ stream_ollama_response w prompt model_name source_type source
           start_time (Some []) st
         = stream_ollama_response w prompt model_name source_type source
             start_time None st
      /\ stream_openai_response w prompt model_name source_type source
           start_time (Some []) st
         = stream_openai_response w prompt model_name source_type source
             start_time None st
      /\ process_with_ai w (with_system_prompt (Some []) request) st
         = process_with_ai w (with_system_prompt None request) st
      /\ process_with_ai_stream w (with_system_prompt (Some []) request) st
         = process_with_ai_stream w (with_system_prompt None request) st)
  /\ (trace (snd (call_openai w prompt model_name system_prompt st)) =
      (if opt_truthy (openai_api_key w) then
         trace st ++ [ChatCompletion
           (openai_request (or_default model_name (lit "gpt-3.5-turbo"))
              (system_content system_prompt) prompt false)]
       else trace st)
      /\ trace (snd (call_ollama w prompt model_name system_prompt st)) =
         trace st ++ [POST (OLLAMA_BASE_URL w ++ lit "/api/generate")
           (ollama_request (or_default model_name (lit "llama2"))
              (system_content system_prompt) prompt false) 120]
      /\ trace (snd (stream_ollama_response w prompt model_name source_type
                       source start_time system_prompt st)) =
         trace st ++ [POST (OLLAMA_BASE_URL w ++ lit "/api/generate")
           (ollama_request (or_default model_name (lit "llama2"))
              (system_content system_prompt) prompt true) 120]
      /\ trace (snd (stream_openai_response w prompt model_name source_type
                       source start_time system_prompt st)) =
         (if opt_truthy (openai_api_key w) then
            trace st ++ [ChatCompletion
              (openai_request (or_default model_name (lit "gpt-3.5-turbo"))
                 (system_content system_prompt) prompt true)]
          else trace st)).
Proof.
  split; [repeat split|split; [repeat split|]].
  repeat split.
  - destruct (opt_truthy (openai_api_key w)) eqn:K.
    + now apply call_openai_request.
    + unfold call_openai. now rewrite K.
  - apply call_ollama_request.
  - apply stream_ollama_request.
  - destruct (opt_truthy (openai_api_key w)) eqn:K.
    + now apply stream_openai_request.
    + unfold stream_openai_response. now rewrite K.
Qed.

(** * Further properties of the core *)

(** ** Resolving the source *)

(** A request with text and no url resolves without any network call: the
    body is the text as given, and the label reported as [source] is the text
    itself up to 100 characters, else its first 100 characters and ["..."]. *)
Theorem text_source_resolved
    (w : World) (request : ProcessRequest) (text : str) (st : St) :
  opt_truthy (req_url request) = false ->
  req_text request = Some text -> truthy text = true ->
  exists label,
    determine_source w request st = (Ok (lit "text", text, label), st)
    /\ (List.length text <= 100 -> label = text)
    /\ (100 < List.length text -> label = firstn 100 text ++ lit "...")
    /\ List.length label <= 103.
Proof.
  intros Hu Ht Hn. unfold determine_source. rewrite Hu, Ht.
  cbn [opt_truthy]. rewrite Hn.
  destruct (Nat.ltb 100 (List.length text)) eqn:E.
  - apply Nat.ltb_lt in E. eexists. split; [reflexivity|].
    split; [intros; lia|]. split; [reflexivity|].
    rewrite length_app, length_firstn.
    change (List.length (lit "...")) with 3. lia.
  - apply Nat.ltb_ge in E. eexists. split; [reflexivity|].
    split; [reflexivity|]. split; [intros; lia|lia].
Qed.

Lemma text_source_resolved_witness :
  exists label,
    determine_source offline_world
      (with_text (Some (lit "Hello")) default_request) st0
    = (Ok (lit "text", lit "Hello", label), st0)
    /\ (List.length (lit "Hello") <= 100 -> label = lit "Hello")
    /\ (100 < List.length (lit "Hello")
        -> label = firstn 100 (lit "Hello") ++ lit "...")
    /\ List.length label <= 103.
Proof.
  apply (@text_source_resolved offline_world
           (with_text (Some (lit "Hello")) default_request) (lit "Hello") st0);
    reflexivity.
Defined.

(** The validation step of [fetch_web_content] touches neither the trace nor
    the clock, and can only raise a [ValueError]. *)
Lemma urlparse_outcome (w : World) (url : str) (st : St) :
  (exists parsed, urlparse w url st = (Ok parsed, st))
  \/ (exists msg, urlparse w url st = (Raise (ValueError msg), st)).
Proof.
  unfold urlparse. destruct (split_scheme _) as [sc u].
  destruct (startswith (lit "//") u); [|left; eexists; reflexivity].
  destruct (netloc_check w _); [right|left]; eexists; reflexivity.
Qed.

(** Every outcome of [fetch_web_content], case by case. *)
Lemma fetch_web_content_cases (w : World) (url : str) (st : St) :
  let fetched :=
    {| trace := trace st ++ [GET (fetch_target url) USER_AGENT 30];
       ticks := ticks st |} in
  (exists detail,
     fetch_web_content w url st
     = (Raise (HTTPException 400 (lit "Error processing URL: " ++ detail)), st))
  \/ (exists detail,
        fetch_web_content w url st
        = (Raise (HTTPException 400 (lit "Failed to fetch URL: " ++ detail)),
           fetched))
  \/ (exists detail,
        fetch_web_content w url st
        = (Raise (HTTPException 400 (lit "Error processing URL: " ++ detail)),
           fetched))
  \/ (exists page,
        requests_get w (fetch_target url) = inr page
        /\ ((status_code page < 400)%Z \/ (600 <= status_code page)%Z)
        /\ fetch_web_content w url st
           = (Ok (truncate (sanitize (text page))), fetched)).
Proof.
  cbv zeta. unfold fetch_web_content, try_except, bind.
  destruct (urlparse_outcome w url st) as [[[scheme netloc] ->]|[msg ->]].
  2:{ left. eexists. reflexivity. }
  cbn [fst snd].
  destruct (negb (truthy scheme) || negb (truthy netloc)).
  { left. eexists. reflexivity. }
  cbn [ret log trace ticks]. fold (fetch_target url).
  destruct (requests_get w (fetch_target url)) as [e|page] eqn:G;
    cbn [of_world raise ret].
  { destruct (is_RequestException e); [right; left|right; right; left];
      eexists; reflexivity. }
  unfold raise_for_status.
  destruct ((400 <=? status_code page) && (status_code page <? 500))%Z eqn:E1.
  { right; left. eexists. reflexivity. }
  destruct ((500 <=? status_code page) && (status_code page <? 600))%Z eqn:E2.
  { right; left. eexists. reflexivity. }
  right; right; right. exists page. repeat split; try reflexivity. lia.
Qed.

(** What a failed resolve looks like: status 400, a detail that says whether
    the fetch or the handling of the URL failed, and at most the one GET. *)
Theorem fetch_web_content_failure
    (w : World) (url : str) (st st' : St) (e : exn) :
  fetch_web_content w url st = (Raise e, st') ->
  (exists detail,
     e = HTTPException 400 (lit "Failed to fetch URL: " ++ detail)
     \/ e = HTTPException 400 (lit "Error processing URL: " ++ detail))
  /\ ticks st' = ticks st
  /\ (trace st' = trace st
      \/ trace st' = trace st ++ [GET (fetch_target url) USER_AGENT 30]).
Proof.
  intros H.
  destruct (fetch_web_content_cases w url st)
    as [[d E]|[[d E]|[[d E]|(page & _ & _ & E)]]];
    rewrite E in H; inversion H; subst; cbn [trace ticks];
    (split; [exists d; auto|split; [reflexivity|auto]]).
Qed.

Lemma fetch_web_content_failure_witness :
  (exists detail,
     HTTPException 400 (lit "Failed to fetch URL: Connection refused")
     = HTTPException 400 (lit "Failed to fetch URL: " ++ detail)
     \/ HTTPException 400 (lit "Failed to fetch URL: Connection refused")
        = HTTPException 400 (lit "Error processing URL: " ++ detail))
  /\ ticks {| trace := [GET (lit "https://example.com/page") USER_AGENT 30];
              ticks := 0 |} = ticks st0
  /\ (trace {| trace := [GET (lit "https://example.com/page") USER_AGENT 30];
               ticks := 0 |} = trace st0
      \/ trace {| trace := [GET (lit "https://example.com/page") USER_AGENT 30];
                  ticks := 0 |}
         = trace st0
           ++ [GET (fetch_target (lit "https://example.com/page")) USER_AGENT 30]).
Proof.
  apply (@fetch_web_content_failure offline_world
           (lit "https://example.com/page") st0).
  reflexivity.
Defined.

(** What a successful resolve means: exactly one page was fetched, at the
    URL itself when it starts with [http://] or [https://] and at
    [https://] + URL otherwise; the page did not have a 4xx or 5xx status; the
    body is its sanitized and capped text. *)
Theorem fetch_web_content_success
    (w : World) (url : str) (st st' : St) (body : str) :
  fetch_web_content w url st = (Ok body, st') ->
  exists page,
    requests_get w (fetch_target url) = inr page
    /\ ((status_code page < 400)%Z \/ (600 <= status_code page)%Z)
    /\ body = truncate (sanitize (text page))
    /\ trace st' = trace st ++ [GET (fetch_target url) USER_AGENT 30]
    /\ ticks st' = ticks st.
Proof.
  intros H.
  destruct (fetch_web_content_cases w url st)
    as [[d E]|[[d E]|[[d E]|(page & G & S & E)]]];
    rewrite E in H; inversion H; subst.
  exists page. auto.
Qed.

Lemma fetch_web_content_success_witness :
  exists page,
    requests_get (sample_world Stop)
      (fetch_target (lit "https://example.com/page")) = inr page
    /\ ((status_code page < 400)%Z \/ (600 <= status_code page)%Z)
    /\ lit "Hello, world" = truncate (sanitize (text page))
    /\ trace {| trace := [GET (lit "https://example.com/page") USER_AGENT 30];
                ticks := 0 |}
       = trace st0
         ++ [GET (fetch_target (lit "https://example.com/page")) USER_AGENT 30]
    /\ ticks {| trace := [GET (lit "https://example.com/page") USER_AGENT 30];
                ticks := 0 |} = ticks st0.
Proof.
  apply (@fetch_web_content_success (sample_world Stop)
           (lit "https://example.com/page") st0).
  vm_compute. reflexivity.
Defined.

(** ** The endpoints, further *)

Lemma startswith_app (p s : str) : startswith p (p ++ s) = true.
Proof.
  induction p as [|a p IH]; simpl; [reflexivity|].
  now rewrite N.eqb_refl, IH.
Qed.

Lemma determine_source_text (w : World) (request : ProcessRequest)
    (text : str) (st : St) :
  opt_truthy (req_url request) = false ->
  req_text request = Some text -> truthy text = true ->
  determine_source w request st
  = (Ok (lit "text", text, source_label text), st).
Proof.
  intros Hu Ht Hn. unfold determine_source. rewrite Hu, Ht.
  cbn [opt_truthy]. now rewrite Hn.
Qed.



(** The outcomes of the two single-shot adapters. *)
Lemma call_openai_cases (w : World) (prompt : str)
    (model_name system_prompt : option str) (st : St) :
  let req := openai_request (or_default model_name (lit "gpt-3.5-turbo"))
               (system_content system_prompt) prompt false in
  (opt_truthy (openai_api_key w) = false
   /\ call_openai w prompt model_name system_prompt st
      = (Raise (HTTPException 500
           (lit "OpenAI API key not configured. Please set OPENAI_API_KEY environment variable.")),
         st))
  \/ (opt_truthy (openai_api_key w) = true
      /\ ((exists e,
             call_openai w prompt model_name system_prompt st
             = (Raise e, logged (ChatCompletion req) st))
          \/ (exists c,
                openai_create w req = inr (Content c)
                /\ call_openai w prompt model_name system_prompt st
                   = (Ok (strip c), logged (ChatCompletion req) st)))).
Proof.
  cbv zeta. unfold call_openai.
  destruct (opt_truthy (openai_api_key w)); cbn [negb]; [right|left; auto].
  split; [reflexivity|]. unfold bind, log, logged.
  destruct (openai_create w _) as [e|[c|msg]] eqn:E; cbn [of_world raise ret].
  - left. eexists. reflexivity.
  - right. exists c. split; reflexivity.
  - left. eexists. reflexivity.
Qed.

Lemma call_ollama_cases (w : World) (prompt : str)
    (model_name system_prompt : option str) (st : St) :
  let url := OLLAMA_BASE_URL w ++ lit "/api/generate" in
  let body := ollama_request (or_default model_name (lit "llama2"))
                (system_content system_prompt) prompt false in
  (exists msg,
     call_ollama w prompt model_name system_prompt st
     = (Raise (Exception (lit "Ollama API error: " ++ msg)),
        logged (POST url body 120) st)
     /\ forall page, requests_post w url body = inr page ->
                     status_code page <> 200%Z ->
                     msg = lit "Ollama API error: "
                           ++ str_of_Z (status_code page)
                           ++ lit " - " ++ text page)
  \/ (exists msg,
        call_ollama w prompt model_name system_prompt st
        = (Raise (Exception (lit "Failed to connect to Ollama at "
                             ++ OLLAMA_BASE_URL w ++ lit ": " ++ msg)),
           logged (POST url body 120) st)
        /\ forall page, requests_post w url body = inr page ->
                        status_code page = 200%Z)
  \/ (exists page s,
        requests_post w url body = inr page
        /\ status_code page = 200%Z
        /\ call_ollama w prompt model_name system_prompt st
           = (Ok (strip s), logged (POST url body 120) st)).
Proof.
  cbv zeta.
  remember (call_ollama w prompt model_name system_prompt st) as R eqn:HR.
  unfold call_ollama, try_except, bind, log in HR.
  fold (logged (POST (OLLAMA_BASE_URL w ++ lit "/api/generate")
                  (ollama_request (or_default model_name (lit "llama2"))
                     (system_content system_prompt) prompt false) 120) st)
    in HR.
  destruct (requests_post w _ _) as [e|page] eqn:P; cbn [of_world raise ret] in HR.
  - destruct (is_RequestException e); subst R; [right; left|left]; eexists;
      (split; [reflexivity|discriminate]).
  - destruct (Z.eqb (status_code page) 200) eqn:S; cbn [negb raise ret] in HR.
    + apply Z.eqb_eq in S.
      destruct (json_body page) as [e|data]; cbn [of_world raise ret] in HR.
      * destruct (is_RequestException e); subst R; [right; left|left]; eexists;
          (split; [reflexivity|intros p Hp; inversion Hp; subst; congruence]).
      * unfold response_text_of in HR.
        destruct data as [|b|n|s|items|fields]; cbn [raise ret] in HR;
          try (subst R; left; eexists; split;
               [reflexivity|intros p Hp; inversion Hp; subst; congruence]).
        destruct (dict_get _ _ fields) as [|b|n|s|items|fs];
          cbn [raise ret] in HR;
          try (subst R; left; eexists; split;
               [reflexivity|intros p Hp; inversion Hp; subst; congruence]).
        subst R. right; right. exists page, s. auto.
    + apply Z.eqb_neq in S. subst R. left. eexists. split; [reflexivity|].
      intros p Hp _. inversion Hp; subst. reflexivity.
Qed.

(** [call_ollama] fails with a plain [Exception] only, never with an HTTP
    status: its message starts with "Ollama API error: " or with "Failed to
    connect to Ollama at <base url>: ", exactly one request has been sent,
    and for an answer whose status is not 200 the message is
    "Ollama API error: Ollama API error: <status> - <body>", the prefix
    added twice. *)
Theorem call_ollama_failure
    (w : World) (prompt : str) (model_name system_prompt : option str)
    (st st' : St) (e : exn) :
  call_ollama w prompt model_name system_prompt st = (Raise e, st') ->
  let url := OLLAMA_BASE_URL w ++ lit "/api/generate" in
  let body := ollama_request (or_default model_name (lit "llama2"))
                (system_content system_prompt) prompt false in
  exists msg,
    e = Exception msg
    /\ (startswith (lit "Ollama API error: ") msg = true
        \/ startswith (lit "Failed to connect to Ollama at "
                       ++ OLLAMA_BASE_URL w ++ lit ": ") msg = true)
    /\ st' = logged (POST url body 120) st
    /\ forall page, requests_post w url body = inr page ->
                    status_code page <> 200%Z ->
                    msg = lit "Ollama API error: Ollama API error: "
                          ++ str_of_Z (status_code page)
                          ++ lit " - " ++ text page.
Proof.
  intros H. cbv zeta.
  destruct (call_ollama_cases w prompt model_name system_prompt st)
    as [(msg & E & B)|[(msg & E & B)|(page & s & _ & _ & E)]];
    rewrite E in H; [| |discriminate];
    match type of H with (Raise ?x, ?y) = _ =>
      assert (He : e = x) by congruence;
      assert (Hs : st' = y) by congruence end;
    clear H; subst e st'.
  - eexists. split; [reflexivity|]. split; [left; apply startswith_app|].
    split; [reflexivity|]. intros page P S. now rewrite (B page P S).
  - eexists. split; [reflexivity|]. split.
    + right. rewrite !app_assoc. apply startswith_app.
    + split; [reflexivity|]. intros page P S. now specialize (B page P).
Qed.

Lemma call_ollama_failure_witness :
  exists msg,
    Exception (lit "Failed to connect to Ollama at http://localhost:11434: Connection refused")
    = Exception msg
    /\ (startswith (lit "Ollama API error: ") msg = true
        \/ startswith (lit "Failed to connect to Ollama at "
                       ++ OLLAMA_BASE_URL offline_world ++ lit ": ") msg = true)
    /\ logged (POST (lit "http://localhost:11434/api/generate")
                 (ollama_request (lit "llama2") DEFAULT_SYSTEM_PROMPT
                    (lit "p") false) 120) st0
       = logged (POST (OLLAMA_BASE_URL offline_world ++ lit "/api/generate")
                   (ollama_request (or_default None (lit "llama2"))
                      (system_content None) (lit "p") false) 120) st0
    /\ forall page,
         requests_post offline_world
           (OLLAMA_BASE_URL offline_world ++ lit "/api/generate")
           (ollama_request (or_default None (lit "llama2"))
              (system_content None) (lit "p") false) = inr page ->
         status_code page <> 200%Z ->
         msg = lit "Ollama API error: Ollama API error: "
               ++ str_of_Z (status_code page) ++ lit " - " ++ text page.
Proof.
  apply (@call_ollama_failure offline_world (lit "p") None None st0).
  reflexivity.
Defined.

(** *** The two endpoints as one case analysis *)

Lemma process_with_ai_eq (w : World) (request : ProcessRequest) (st : St) :
  process_with_ai w request st =
  match determine_source w request (tick st) with
  | (Raise e, st1) =>
      (Raise (HTTPException 500 (lit "AI processing failed: " ++ exn_str e)),
       tick st1)
  | (Ok (kind, body, label), st1) =>
      match (if is_ollama (model_provider request)
             then call_ollama else call_openai)
              w (build_prompt body kind) (model_name request)
              (system_prompt request) st1 with
      | (Raise e, st2) =>
          (Raise (HTTPException 500
                    (lit "AI processing failed: " ++ exn_str e)),
           tick st2)
      | (Ok r, st2) =>
          (Ok {| success := true; result := r;
                 model_used := provenance request;
                 processing_time :=
                   (time_time w (ticks st2) - time_time w (ticks st))%Z;
                 source_type := kind; source := label |},
           tick st2)
      end
  end.
Proof.
  unfold process_with_ai, bind at 1, try_except. rewrite now_trace.
  fold (tick st). unfold bind at 1.
  destruct (determine_source w request (tick st))
    as [[[[kind body] label]|e] st1]; [|reflexivity].
  unfold provenance, bind, ret, processing_failed, raise.
  destruct (is_ollama (model_provider request)).
  - destruct (call_ollama w _ _ _ st1) as [[r|e] st2]; reflexivity.
  - destruct (call_openai w _ _ _ st1) as [[r|e] st2]; reflexivity.
Qed.

Lemma process_with_ai_stream_eq (w : World) (request : ProcessRequest) (st : St) :
  process_with_ai_stream w request st =
  match determine_source w request (tick st) with
  | (Raise e, st1) =>
      (Raise (HTTPException 500 (lit "AI processing failed: " ++ exn_str e)),
       tick st1)
  | (Ok (kind, body, label), st1) =>
      let '(frames, st2) :=
        (if is_ollama (model_provider request)
         then stream_ollama_response else stream_openai_response)
          w (build_prompt body kind) (model_name request) kind label
          (time_time w (ticks st)) (system_prompt request) st1 in
      (Ok frames, st2)
  end.
Proof.
  unfold process_with_ai_stream, bind at 1. rewrite now_trace.
  fold (tick st). unfold bind at 1, try_except, bind at 1.
  destruct (determine_source w request (tick st))
    as [[[[kind body] label]|e] st1]; [|reflexivity].
  destruct (is_ollama (model_provider request)); reflexivity.
Qed.

(** When the hosted provider is selected and no API key is configured, a
    request whose source resolves makes no backend call: [POST /process]
    fails with the "not configured" message (wrapped, status 500), and
    [POST /process-stream] answers one error frame. *)
Theorem hosted_provider_not_configured
    (w : World) (request : ProcessRequest) (st st1 : St)
    (src : str * str * str) :
  opt_truthy (openai_api_key w) = false ->
  is_ollama (model_provider request) = false ->
  determine_source w request (tick st) = (Ok src, st1) ->
  process_with_ai w request st
  = (Raise (HTTPException 500
       (lit "AI processing failed: 500: OpenAI API key not configured. Please set OPENAI_API_KEY environment variable.")),
     tick st1)
  /\ process_with_ai_stream w request st
     = (Ok [error_frame (lit "OpenAI API key not configured")], st1).
Proof.
  intros K P D. rewrite process_with_ai_eq, process_with_ai_stream_eq, D, P.
  destruct src as [[kind body] label].
  unfold call_openai, stream_openai_response. rewrite K. split; reflexivity.
Qed.

Lemma hosted_provider_not_configured_witness :
  process_with_ai offline_world
    (with_text (Some (lit "Hello")) default_request) st0
  = (Raise (HTTPException 500
       (lit "AI processing failed: 500: OpenAI API key not configured. Please set OPENAI_API_KEY environment variable.")),
     tick (tick st0))
  /\ process_with_ai_stream offline_world
       (with_text (Some (lit "Hello")) default_request) st0
     = (Ok [error_frame (lit "OpenAI API key not configured")], tick st0).
Proof.
  apply (@hosted_provider_not_configured offline_world
           (with_text (Some (lit "Hello")) default_request) st0 (tick st0)
           (lit "text", lit "Hello", lit "Hello")); reflexivity.
Defined.

(** What a successful [POST /process] returns and what it has sent: the
    envelope has [success = true], the source kind and label that were
    resolved, a result with no white space at either end, and as [model_used]
    the provider tag and the model (the caller's, or the provider's default
    when absent or empty); the last network call is the one backend request,
    carrying that model and the prompt built from the resolved body. *)
Theorem process_with_ai_envelope
    (w : World) (request : ProcessRequest) (st st' : St)
    (env : ProcessResponse) :
  process_with_ai w request st = (Ok env, st') ->
  exists kind body label st1,
    determine_source w request (tick st) = (Ok (kind, body, label), st1)
    /\ success env = true
    /\ source_type env = kind /\ source env = label
    /\ model_used env = provenance request
    /\ strip (result env) = result env
    /\ trace st'
       = trace st1 ++ [backend_call w request (build_prompt body kind) false].
Proof.
  rewrite process_with_ai_eq.
  destruct (determine_source w request (tick st))
    as [[[[kind body] label]|e] st1]; [|discriminate].
  intros H. exists kind, body, label, st1. split; [reflexivity|].
  unfold backend_call. destruct (is_ollama (model_provider request)).
  - destruct (call_ollama_cases w (build_prompt body kind)
                (model_name request) (system_prompt request) st1)
      as [(msg & E & _)|[(msg & E & _)|(page & s & _ & _ & E)]];
      rewrite E in H; try discriminate.
    injection H as <- <-. cbn. repeat split. apply strip_idem.
  - destruct (call_openai_cases w (build_prompt body kind)
                (model_name request) (system_prompt request) st1)
      as [[_ E]|[_ [[e E]|(c & _ & E)]]];
      rewrite E in H; try discriminate.
    injection H as <- <-. cbn. repeat split. apply strip_idem.
Qed.

Lemma process_with_ai_envelope_witness :
  exists kind body label st1,
    determine_source (sample_world Stop)
      (with_text (Some (lit "Hello")) default_request) (tick st0)
    = (Ok (kind, body, label), st1)
    /\ success {| success := true; result := lit "done";
                  model_used := lit "openai:gpt-3.5-turbo";
                  processing_time := 1;
                  source_type := lit "text"; source := lit "Hello" |} = true
    /\ source_type {| success := true; result := lit "done";
                      model_used := lit "openai:gpt-3.5-turbo";
                      processing_time := 1;
                      source_type := lit "text"; source := lit "Hello" |} = kind
    /\ source {| success := true; result := lit "done";
                 model_used := lit "openai:gpt-3.5-turbo";
                 processing_time := 1;
                 source_type := lit "text"; source := lit "Hello" |} = label
    /\ model_used {| success := true; result := lit "done";
                     model_used := lit "openai:gpt-3.5-turbo";
                     processing_time := 1;
                     source_type := lit "text"; source := lit "Hello" |}
       = provenance (with_text (Some (lit "Hello")) default_request)
    /\ strip (result {| success := true; result := lit "done";
                        model_used := lit "openai:gpt-3.5-turbo";
                        processing_time := 1;
                        source_type := lit "text"; source := lit "Hello" |})
       = result {| success := true; result := lit "done";
                   model_used := lit "openai:gpt-3.5-turbo";
                   processing_time := 1;
                   source_type := lit "text"; source := lit "Hello" |}
    /\ trace (tick (logged
                (ChatCompletion
                   (openai_request (lit "gpt-3.5-turbo") DEFAULT_SYSTEM_PROMPT
                      (build_prompt (lit "Hello") (lit "text")) false))
                (tick st0)))
       = trace st1
         ++ [backend_call (sample_world Stop)
               (with_text (Some (lit "Hello")) default_request)
               (build_prompt body kind) false].
Proof.
  apply (@process_with_ai_envelope (sample_world Stop)
           (with_text (Some (lit "Hello")) default_request) st0).
  vm_compute. reflexivity.
Defined.

(** Any provider tag other than ["ollama"] selects the hosted provider: on
    both endpoints the request behaves as with ["openai"]. *)
Theorem unknown_provider_is_hosted
    (w : World) (request : ProcessRequest) (p : option str) (st : St) :
  p <> Some (lit "ollama") ->
  process_with_ai w (with_provider p request) st
  = process_with_ai w (with_provider (Some (lit "openai")) request) st
  /\ process_with_ai_stream w (with_provider p request) st
     = process_with_ai_stream w (with_provider (Some (lit "openai")) request) st.
Proof.
  intros Hp.
  assert (E : is_ollama p = false).
  { destruct p as [s|]; [|reflexivity]. simpl.
    destruct (str_eqb s (lit "ollama")) eqn:E; [|reflexivity].
    apply str_eqb_eq in E. congruence. }
  rewrite !process_with_ai_eq, !process_with_ai_stream_eq.
  change (determine_source w (with_provider p request))
    with (determine_source w request).
  change (determine_source w (with_provider (Some (lit "openai")) request))
    with (determine_source w request).
  unfold provenance. cbn [model_provider model_name system_prompt with_provider].
  rewrite E. split; reflexivity.
Qed.

Lemma unknown_provider_is_hosted_witness :
  process_with_ai (sample_world Stop)
    (with_provider (Some (lit "Ollama"))
       (with_text (Some (lit "Hello")) default_request)) st0
  = process_with_ai (sample_world Stop)
      (with_provider (Some (lit "openai"))
         (with_text (Some (lit "Hello")) default_request)) st0
  /\ process_with_ai_stream (sample_world Stop)
       (with_provider (Some (lit "Ollama"))
          (with_text (Some (lit "Hello")) default_request)) st0
     = process_with_ai_stream (sample_world Stop)
         (with_provider (Some (lit "openai"))
            (with_text (Some (lit "Hello")) default_request)) st0.
Proof.
  apply (@unknown_provider_is_hosted (sample_world Stop)
           (with_text (Some (lit "Hello")) default_request)
           (Some (lit "Ollama")) st0).
  discriminate.
Defined.

(** *** Network calls *)






(** ** Streams, further *)

Lemma terminal_is_last (chunks : list frame) (last : frame) :
  forallb (fun f => negb (is_terminal f)) chunks = true ->
  forall pre f post,
    chunks ++ [last] = pre ++ f :: post -> is_terminal f = true -> post = [].
Proof.
  induction chunks as [|c cs IH]; intros Hc pre f post E T.
  - destruct pre as [|p pre]; simpl in E.
    + now inversion E.
    + inversion E. destruct pre; discriminate.
  - simpl in Hc. apply andb_true_iff in Hc as [Hc1 Hc2].
    destruct pre as [|p pre]; simpl in E; inversion E; subst.
    + rewrite T in Hc1. discriminate.
    + eapply IH; eauto.
Qed.

Lemma no_terminal_count (frames : list frame) :
  forallb (fun f => negb (is_terminal f)) frames = true ->
  count_terminal frames = 0.
Proof.
  unfold count_terminal. induction frames as [|f frames IH]; [reflexivity|].
  simpl. intros H. apply andb_true_iff in H as [Hf H].
  apply negb_true_iff in Hf. rewrite Hf. auto.
Qed.

(** The hosted stream always ends with exactly one terminal event, a Done or
    an Error, and every frame before it is a chunk: in every world, with or
    without a key, whether the backend fails at once, half-way or never. *)
Theorem hosted_stream_one_terminal
    (w : World) (prompt : str) (model_name : option str)
    (source_type source : str) (start_time : Z) (system_prompt : option str)
    (st : St) :
  let frames :=
    fst (stream_openai_response w prompt model_name source_type source
           start_time system_prompt st) in
  count_terminal frames = 1
  /\ exists chunks last,
       frames = chunks ++ [last]
       /\ (kind_of last = Done \/ kind_of last = Error)
       /\ Forall (fun f => kind_of f = Chunk) chunks.
Proof.
  cbv zeta.
  pose proof (stream_openai_well_terminated w prompt model_name source_type
                source start_time system_prompt st) as W.
  split; [now apply well_terminated_count|].
  destruct W as (chunks & last & E & Hl & Hc).
  exists chunks, last. split; [exact E|]. split.
  - unfold is_terminal in Hl. destruct (kind_of last); auto; discriminate.
  - apply Forall_forall. intros f Hin.
    rewrite forallb_forall in Hc. specialize (Hc f Hin).
    unfold is_terminal in Hc. destruct (kind_of f); auto; discriminate.
Qed.

(** The local stream never has more than one terminal event and never sends
    anything after it. *)
Theorem local_stream_at_most_one_terminal
    (w : World) (prompt : str) (model_name : option str)
    (source_type source : str) (start_time : Z) (system_prompt : option str)
    (st : St) :
  let frames :=
    fst (stream_ollama_response w prompt model_name source_type source
           start_time system_prompt st) in
  count_terminal frames <= 1
  /\ forall pre f post,
       frames = pre ++ f :: post -> is_terminal f = true -> post = [].
Proof.
  cbv zeta.
  destruct (stream_ollama_terminal w prompt model_name source_type source
              start_time system_prompt st) as [H|H].
  - split; [rewrite no_terminal_count by exact H; lia|].
    intros pre f post E T. rewrite E in H.
    rewrite forallb_app in H. apply andb_true_iff in H as [_ H].
    simpl in H. rewrite T in H. discriminate.
  - split; [rewrite well_terminated_count by exact H; lia|].
    destruct H as (chunks & last & E & Hl & Hc). rewrite E.
    now apply terminal_is_last.
Qed.

(** *** The local backend's loop *)
Section LocalLoop.

Variable w : World.
Variables model source_type source : str.
Variable start_time : Z.

Let loop := ollama_lines w model source_type source start_time.

Lemma count_terminal_error (e : exn) :
  count_terminal [ollama_stream_error e] = 1.
Proof.
  unfold count_terminal. cbn [filter].
  now rewrite is_terminal_ollama_error.
Qed.

Lemma loop_count (lines : iter line) :
  forall (full_response : str) (st : St),
    count_terminal (fst (loop full_response lines st))
    = if never_done lines then 0 else 1.
Proof.
  unfold loop.
  induction lines as [|l rest IH|e]; intros full st;
    cbn [ollama_lines never_done]; [reflexivity| |].
  - destruct l as [|msg| |msg|data]; cbn [andb fst]; try apply IH;
      try apply count_terminal_error.
    destruct (json_truthy (dict_get (lit "done") (JBool false) data)) eqn:D;
      cbn [negb andb].
    + destruct (dict_lookup (lit "response") data) as [v|]; [|reflexivity].
      destruct v; try apply count_terminal_error. reflexivity.
    + destruct (dict_lookup (lit "response") data) as [v|]; [|apply IH].
      destruct v as [|b|n|chunk|items|fields];
        try apply count_terminal_error.
      specialize (IH (full ++ chunk) st).
      destruct (ollama_lines _ _ _ _ _ _ rest st) as [frames st'].
      exact IH.
  - apply count_terminal_error.
Qed.

Lemma loop_stops_at_done (data : dict) (pre : list line) :
  json_truthy (dict_get (lit "done") (JBool false) data) = true ->
  forall (rest1 rest2 : iter line) (full_response : str) (st : St),
    loop full_response (iter_of pre (Yield (Json data) rest1)) st
    = loop full_response (iter_of pre (Yield (Json data) rest2)) st.
Proof.
  unfold loop. intros D rest1 rest2.
  induction pre as [|l pre IH]; intros full st; cbn [iter_of ollama_lines].
  - rewrite D. reflexivity.
  - destruct l as [|msg| |msg|d]; try apply IH; try reflexivity.
    destruct (json_truthy (dict_get (lit "done") (JBool false) d)).
    + reflexivity.
    + destruct (dict_lookup (lit "response") d) as [v|]; [|apply IH].
      destruct v; try reflexivity. now rewrite IH.
Qed.

Lemma loop_skips_noise (lines : iter line) :
  forall (full_response : str) (st : St),
    loop full_response (skip_noise lines) st = loop full_response lines st.
Proof.
  unfold loop.
  induction lines as [|l rest IH|e]; intros full st; [reflexivity| |reflexivity].
  destruct l as [|msg| |msg|d]; cbn [skip_noise ollama_lines];
    try apply IH; try reflexivity.
  destruct (json_truthy (dict_get (lit "done") (JBool false) d)).
  - reflexivity.
  - destruct (dict_lookup (lit "response") d) as [v|]; [|apply IH].
    destruct v; try reflexivity. now rewrite IH.
Qed.

Lemma chunk_texts_ollama_error (e : exn) :
  chunk_texts [ollama_stream_error e] = [].
Proof. unfold ollama_stream_error. now destruct (is_RequestException e). Qed.

Lemma loop_chunk_texts (lines : iter line) :
  forall (full_response : str) (st : St),
    chunk_texts (fst (loop full_response lines st)) = responses_sent lines.
Proof.
  unfold loop.
  induction lines as [|l rest IH|e]; intros full st;
    cbn [ollama_lines responses_sent]; [reflexivity| |].
  - destruct l as [|msg| |msg|data]; try apply IH;
      try apply chunk_texts_ollama_error.
    destruct (json_truthy (dict_get (lit "done") (JBool false) data)).
    + destruct (dict_lookup (lit "response") data) as [v|]; [|reflexivity].
      destruct v; try apply chunk_texts_ollama_error. reflexivity.
    + destruct (dict_lookup (lit "response") data) as [v|]; [|apply IH].
      destruct v as [|b|n|chunk|items|fields];
        try apply chunk_texts_ollama_error.
      specialize (IH (full ++ chunk) st).
      destruct (ollama_lines _ _ _ _ _ _ rest st) as [frames st'].
      cbn [fst] in *. cbn. now rewrite IH.
  - apply chunk_texts_ollama_error.
Qed.

End LocalLoop.

(** When the local backend answers with status 200, its stream has a
    terminal event exactly unless the body closes cleanly with no line ever
    reporting completion; then it has none. *)
Theorem local_stream_terminal_count
    (w : World) (prompt : str) (model_name : option str)
    (source_type source : str) (start_time : Z) (system_prompt : option str)
    (st : St) (page : response) :
  requests_post w (OLLAMA_BASE_URL w ++ lit "/api/generate")
    (ollama_request (or_default model_name (lit "llama2"))
       (system_content system_prompt) prompt true) = inr page ->
  status_code page = 200%Z ->
  count_terminal
    (fst (stream_ollama_response w prompt model_name source_type source
            start_time system_prompt st))
  = if never_done (iter_lines page) then 0 else 1.
Proof.
  intros P S. unfold stream_ollama_response. rewrite P, S.
  rewrite Z.eqb_refl. cbn [negb]. apply loop_count.
Qed.

Lemma local_stream_terminal_count_witness :
  count_terminal
    (fst (stream_ollama_response (sample_world finished_lines) (lit "p") None
            (lit "text") (lit "Hello") 0 None st0))
  = if never_done (iter_lines (ok_response [] finished_lines)) then 0 else 1.
Proof.
  apply (@local_stream_terminal_count (sample_world finished_lines) (lit "p")
           None (lit "text") (lit "Hello") 0%Z None st0
           (ok_response [] finished_lines)); reflexivity.
Defined.

(** The chunks of the local stream are the [response] texts of the lines
    read, in order, up to and including the line that reports completion;
    nothing is lost before a failure, nothing is sent twice. *)
Theorem local_stream_chunk_texts
    (w : World) (prompt : str) (model_name : option str)
    (source_type source : str) (start_time : Z) (system_prompt : option str)
    (st : St) (page : response) :
  requests_post w (OLLAMA_BASE_URL w ++ lit "/api/generate")
    (ollama_request (or_default model_name (lit "llama2"))
       (system_content system_prompt) prompt true) = inr page ->
  status_code page = 200%Z ->
  chunk_texts
    (fst (stream_ollama_response w prompt model_name source_type source
            start_time system_prompt st))
  = responses_sent (iter_lines page).
Proof.
  intros P S. unfold stream_ollama_response. rewrite P, S.
  rewrite Z.eqb_refl. cbn [negb]. apply loop_chunk_texts.
Qed.

Lemma local_stream_chunk_texts_witness :
  chunk_texts
    (fst (stream_ollama_response (sample_world finished_lines) (lit "p") None
            (lit "text") (lit "Hello") 0 None st0))
  = responses_sent (iter_lines (ok_response [] finished_lines)).
Proof.
  apply (@local_stream_chunk_texts (sample_world finished_lines) (lit "p")
           None (lit "text") (lit "Hello") 0%Z None st0
           (ok_response [] finished_lines)); reflexivity.
Defined.

(** Once a line reports completion the local backend's body is read no
    further: what comes after that line changes neither the frames nor the
    state. *)
Theorem local_stream_stops_at_done
    (w : World) (model source_type source : str) (start_time : Z)
    (full_response : str) (st : St)
    (pre : list line) (data : dict) (rest1 rest2 : iter line) :
  json_truthy (dict_get (lit "done") (JBool false) data) = true ->
  ollama_lines w model source_type source start_time full_response
    (iter_of pre (Yield (Json data) rest1)) st
  = ollama_lines w model source_type source start_time full_response
      (iter_of pre (Yield (Json data) rest2)) st.
Proof. intros D. now apply loop_stops_at_done. Qed.

Lemma local_stream_stops_at_done_witness :
  ollama_lines offline_world (lit "llama2") (lit "text") (lit "Hello") 0 []
    (iter_of [Json [(lit "response", JStr (lit "Hi"))]]
       (Yield (Json [(lit "done", JBool true)]) Stop)) st0
  = ollama_lines offline_world (lit "llama2") (lit "text") (lit "Hello") 0 []
      (iter_of [Json [(lit "response", JStr (lit "Hi"))]]
         (Yield (Json [(lit "done", JBool true)])
            (Fail (RequestException (lit "Connection reset"))))) st0.
Proof.
  apply (@local_stream_stops_at_done offline_world (lit "llama2") (lit "text")
           (lit "Hello") 0%Z [] st0
           [Json [(lit "response", JStr (lit "Hi"))]]
           [(lit "done", JBool true)]).
  reflexivity.
Defined.

(** Blank lines and lines that are not JSON are skipped without a trace:
    removing them all from the body leaves the local stream as it is. *)
Theorem local_stream_skips_noise
    (w : World) (model source_type source : str) (start_time : Z)
    (full_response : str) (st : St) (lines : iter line) :
  ollama_lines w model source_type source start_time full_response
    (skip_noise lines) st
  = ollama_lines w model source_type source start_time full_response lines st.
Proof. apply loop_skips_noise. Qed.

(** *** The hosted backend's loop *)
Lemma openai_chunks_shape (w : World) (model source_type source : str)
    (start_time : Z) (chunks : iter delta) :
  forall (full_response : str) (st : St),
  exists last,
    fst (openai_chunks w model source_type source start_time
           full_response chunks st)
    = map (fun s => chunk_frame s (JBool false)) (contents_sent chunks)
      ++ [last]
    /\ kind_of last = if ends_cleanly chunks then Done else Error.
Proof.
  induction chunks as [|d rest IH|e]; intros full st;
    cbn [openai_chunks contents_sent ends_cleanly].
  - eexists. split; reflexivity.
  - destruct d as [c|msg].
    + destruct c as [[|c s]|]; cbn [opt_truthy truthy]; try apply IH.
      destruct (IH (full ++ c :: s) st) as (last & E & K).
      destruct (openai_chunks _ _ _ _ _ _ rest st) as [frames st'].
      cbn [fst] in *. exists last. rewrite E. split; [reflexivity|exact K].
    + eexists. split; reflexivity.
  - eexists. split; reflexivity.
Qed.

(** With a key configured and the completion stream opened, the hosted
    stream is one chunk frame, with ["done": false], per non-empty content
    received, in order, and then one last frame: Done if the backend's stream
    ran to its end, Error if it broke, after the chunks already sent. *)
Theorem hosted_stream_frames
    (w : World) (prompt : str) (model_name : option str)
    (source_type source : str) (start_time : Z) (system_prompt : option str)
    (st : St) (chunks : iter delta) :
  opt_truthy (openai_api_key w) = true ->
  openai_create_stream w
    (openai_request (or_default model_name (lit "gpt-3.5-turbo"))
       (system_content system_prompt) prompt true) = inr chunks ->
  exists last,
    fst (stream_openai_response w prompt model_name source_type source
           start_time system_prompt st)
    = map (fun s => chunk_frame s (JBool false)) (contents_sent chunks)
      ++ [last]
    /\ kind_of last = if ends_cleanly chunks then Done else Error.
Proof.
  intros K C. unfold stream_openai_response. rewrite K, C. cbn [negb].
  apply openai_chunks_shape.
Qed.

Lemma hosted_stream_frames_witness :
  exists last,
    fst (stream_openai_response (sample_world Stop) (lit "p") None
           (lit "text") (lit "Hello") 0 None st0)
    = map (fun s => chunk_frame s (JBool false))
        (contents_sent (Yield (Delta (Some (lit "Hi"))) Stop))
      ++ [last]
    /\ kind_of last
       = if ends_cleanly (Yield (Delta (Some (lit "Hi"))) Stop)
         then Done else Error.
Proof.
  apply (@hosted_stream_frames (sample_world Stop) (lit "p") None
           (lit "text") (lit "Hello") 0%Z None st0
           (Yield (Delta (Some (lit "Hi"))) Stop)); reflexivity.
Defined.

(** The closing Done frame of either stream names the provider and the model
    (the caller's, or the provider's default when absent or empty) and
    repeats the source kind and label it was given. *)
Theorem done_frame_provenance
    (w : World) (prompt : str) (model_name : option str)
    (source_type source : str) (start_time : Z) (system_prompt : option str)
    (st : St) (f : frame) :
  kind_of f = Done ->
  (In f (fst (stream_ollama_response w prompt model_name source_type source
                start_time system_prompt st)) ->
   exists t,
     f = done_frame t (lit "ollama:" ++ or_default model_name (lit "llama2"))
           source_type source)
  /\ (In f (fst (stream_openai_response w prompt model_name source_type source
                   start_time system_prompt st)) ->
      exists t,
        f = done_frame t
              (lit "openai:" ++ or_default model_name (lit "gpt-3.5-turbo"))
              source_type source).
Proof.
  intros K. split; intros Hin.
  - apply stream_ollama_frames in Hin as [He|(page & _ & Hf)]; [congruence|].
    destruct Hf as [data text _ _|t|msg]; [discriminate|eauto|discriminate].
  - apply stream_openai_frames in Hin.
    destruct Hin as [text|t|msg]; [discriminate|eauto|discriminate].
Qed.

Lemma done_frame_provenance_witness :
  (In (done_frame 0 (lit "ollama:llama2") (lit "text") (lit "Hello"))
     (fst (stream_ollama_response (sample_world finished_lines) (lit "p") None
             (lit "text") (lit "Hello") 0 None st0)) ->
   exists t,
     done_frame 0 (lit "ollama:llama2") (lit "text") (lit "Hello")
     = done_frame t (lit "ollama:" ++ or_default None (lit "llama2"))
         (lit "text") (lit "Hello"))
  /\ (In (done_frame 0 (lit "ollama:llama2") (lit "text") (lit "Hello"))
        (fst (stream_openai_response (sample_world finished_lines) (lit "p")
                None (lit "text") (lit "Hello") 0 None st0)) ->
      exists t,
        done_frame 0 (lit "ollama:llama2") (lit "text") (lit "Hello")
        = done_frame t
            (lit "openai:" ++ or_default None (lit "gpt-3.5-turbo"))
            (lit "text") (lit "Hello")).
Proof.
  apply (@done_frame_provenance (sample_world finished_lines) (lit "p") None
           (lit "text") (lit "Hello") 0%Z None st0
           (done_frame 0 (lit "ollama:llama2") (lit "text") (lit "Hello"))).
  reflexivity.
Defined.

(** ** The sanitizer, further *)

Lemma re_sub_length (r : regex) (s : str) :
  List.length (re_sub r [] s) <= List.length s.
Proof.
  remember (List.length s) as n eqn:Hn. revert s Hn.
  induction n as [n IH] using lt_wf_ind. intros s Hn.
  destruct s as [|c s]; unfold re_sub; cbn [re_sub_from].
  - destruct (re_match r []); simpl; lia.
  - assert (Hs : List.length (c :: re_sub_from r [] 0 s) <= n).
    { subst n. cbn [List.length]. apply le_n_S.
      apply (IH (List.length s)); [simpl; lia|reflexivity]. }
    destruct (re_match r (c :: s)) as [rest|]; [|exact Hs].
    destruct (List.length (c :: s) - List.length rest) as [|k] eqn:E;
      [exact Hs|].
    cbn [app]. rewrite re_sub_skip by (cbn [List.length] in E; lia).
    assert (L : List.length (skipn k s) < n)
      by (rewrite length_skipn; cbn [List.length] in Hn; lia).
    pose proof (IH _ L (skipn k s) eq_refl) as IH'.
    rewrite length_skipn in IH'. cbn [List.length] in Hn. lia.
Qed.

Lemma collapse_length (b : bool) (s : str) :
  List.length (collapse b s) <= List.length s.
Proof.
  revert b. induction s as [|c s IH]; intros b; simpl; [lia|].
  destruct (isspace c).
  - destruct b; simpl; specialize (IH true); lia.
  - simpl. specialize (IH false). lia.
Qed.

Lemma strip_length (s : str) : List.length (strip s) <= List.length s.
Proof.
  unfold strip, rstrip. rewrite length_rev.
  pose proof (lstrip_length (rev (lstrip s))) as H.
  rewrite length_rev in H. pose proof (lstrip_length s). lia.
Qed.

Lemma no_match_suffix (r : regex) (a b : str) :
  no_match r (a ++ b) -> re_match r b = None.
Proof.
  induction a as [|c a IH]; simpl.
  - destruct b; simpl; tauto.
  - intros [_ H]. auto.
Qed.

Lemma single_spaced_spec (s : str) :
  single_spaced s = true ->
  (forall c, In c s -> isspace c = true -> c = 32%N)
  /\ (forall a c d b, s = a ++ c :: d :: b ->
                      isspace c = true -> isspace d = false).
Proof.
  induction s as [|x s IH]; simpl.
  - intros _. split; [intros c []|].
    intros a c d b E. destruct a; discriminate.
  - intros H. apply andb_true_iff in H as [Hx Hs].
    destruct (IH Hs) as [IH1 IH2]. split.
    + intros c [<-|Hin] Hc; [|now apply IH1].
      rewrite Hc in Hx. apply andb_true_iff in Hx as [Hx _].
      now apply N.eqb_eq in Hx.
    + intros a c d b E Hc. destruct a as [|y a]; simpl in E; inversion E; subst.
      * rewrite Hc in Hx. apply andb_true_iff in Hx as [_ Hx].
        simpl in Hx. now apply negb_true_iff in Hx.
      * eapply IH2; eauto.
Qed.

(** What the sanitizer hands on: a text in which no tag is left at any
    position, every white-space character is a single U+0020 between two
    other characters, neither end is white space, and which is no longer
    than the page it came from. *)
Theorem sanitize_output_shape (s : str) :
  (forall a b, sanitize s = a ++ b -> re_match tag_re b = None)
  /\ (forall c, In c (sanitize s) -> isspace c = true -> c = 32%N)
  /\ (forall a c d b, sanitize s = a ++ c :: d :: b ->
                      isspace c = true -> isspace d = false)
  /\ head_not_space (sanitize s) = true
  /\ head_not_space (rev (sanitize s)) = true
  /\ List.length (sanitize s) <= List.length s.
Proof.
  destruct (sanitize_normal s) as (T & S & _).
  destruct (single_spaced_spec _ S) as [S1 S2].
  split; [|split; [exact S1|split; [exact S2|]]].
  - intros a b E. apply no_match_tag in T. rewrite E in T.
    now apply no_match_suffix in T.
  - unfold sanitize. cbv zeta. rewrite re_sub_ws. unfold strip. repeat split.
    + apply rstrip_head, lstrip_head.
    + unfold rstrip. rewrite rev_involutive. apply lstrip_head.
    + fold (strip (collapse false
                     (re_sub tag_re []
                        (re_sub style_re [] (re_sub script_re [] s))))).
      pose proof (strip_length
                    (collapse false
                       (re_sub tag_re []
                          (re_sub style_re [] (re_sub script_re [] s))))).
      pose proof (collapse_length false
                    (re_sub tag_re []
                       (re_sub style_re [] (re_sub script_re [] s)))).
      pose proof (re_sub_length tag_re
                    (re_sub style_re [] (re_sub script_re [] s))).
      pose proof (re_sub_length style_re (re_sub script_re [] s)).
      pose proof (re_sub_length script_re s).
      lia.
Qed.

(** *** Whole elements *)

Lemma lit_app (x y : string) : lit (x ++ y) = lit x ++ lit y.
Proof.
  unfold lit. induction x as [|a x IH]; simpl; [reflexivity|].
  now rewrite IH.
Qed.

Lemma ci_self (a : ascii) : ci a (ch a) = true.
Proof. unfold ci. now rewrite N.eqb_refl. Qed.

Lemma word_match_lit (w : string) (tail : regex) (s : str)
    (k : str -> option str) :
  matchk (word ci w tail) (lit w ++ s) k = matchk tail s k.
Proof.
  induction w as [|a w IH]; [reflexivity|].
  cbn [word matchk]. change (lit (String a w)) with (ch a :: lit w).
  cbn [app]. now rewrite ci_self.
Qed.

Lemma drop_while_all (p : char -> bool) (a s : str) :
  forallb p a = true -> drop_while p (a ++ s) = drop_while p s.
Proof.
  induction a as [|c a IH]; simpl; [reflexivity|].
  intros H. apply andb_true_iff in H as [-> H]. auto.
Qed.

Lemma lazy_skip (t u : str) (k : str -> option str) (r : str) :
  (forall c v, is_char "<" c = false -> k (c :: v) = None) ->
  forallb no_lt t = true ->
  k u = Some r ->
  star_lazy any_char (t ++ u) k = Some r.
Proof.
  intros Hk Ht Hu. induction t as [|c t IH]; cbn [app].
  - destruct u; simpl; now rewrite Hu.
  - simpl in Ht. apply andb_true_iff in Ht as [Hc Ht].
    apply negb_true_iff in Hc. cbn [star_lazy].
    rewrite (Hk c (t ++ u) Hc). cbn [any_char]. auto.
Qed.

Lemma closing_needs_lt (name : string) (c : char) (v : str) :
  is_char "<" c = false ->
  matchk (word ci ("<" ++ "/" ++ name) (Chr (is_char ">"))) (c :: v) Some = None.
Proof.
  intros H. cbn [append word matchk].
  destruct (ci "<" c) eqn:E; [|reflexivity].
  apply ci_lt in E. congruence.
Qed.

(** A block pattern matches a whole element whose attributes hold no [>] and
    whose text holds no [<]. *)
Lemma block_match_element (name : string) (attrs text b : str) :
  forallb not_gt attrs = true -> forallb no_lt text = true ->
  re_match (block_re name) (element name attrs text ++ b) = Some b.
Proof.
  intros Ha Ht. unfold re_match, block_re, element.
  rewrite <- !app_assoc. rewrite word_match_lit. cbn [matchk].
  rewrite (@greedy_then_gt _
             (fun u => star_lazy any_char u
                         (fun s' => matchk (word ci ("</" ++ name)
                                              (Chr (is_char ">"))) s' Some)))
    by reflexivity.
  rewrite drop_while_all by exact Ha.
  change (lit ">") with [ch ">"]. cbn [app drop_while].
  change (not_gt (ch ">")) with false. cbn [after_gt].
  change (is_char ">" (ch ">")) with true. cbv iota.
  apply lazy_skip; [apply closing_needs_lt|exact Ht|].
  change (lit ("</" ++ name ++ ">")) with (lit (("</" ++ name) ++ ">")).
  rewrite lit_app, <- app_assoc, word_match_lit. reflexivity.
Qed.

Lemma passes_app (r : regex) (p q s : str) :
  passes r p (q ++ s) -> passes r q s -> passes r (p ++ q) s.
Proof.
  induction p as [|c p IH]; simpl; [auto|].
  intros [H1 H2] Hq. rewrite <- app_assoc. auto.
Qed.

Lemma passes_no_lt (r : regex) (p s : str) :
  (forall s0 r0, re_match r s0 = Some r0 ->
                 exists c s', s0 = c :: s' /\ tag_start c s' = true) ->
  forallb no_lt p = true -> passes r p s.
Proof.
  intros Hr. induction p as [|c p IH]; simpl; [auto|].
  intros H. apply andb_true_iff in H as [Hc Hp]. split; [|auto].
  destruct (re_match r (c :: p ++ s)) as [r0|] eqn:E; [|reflexivity].
  destruct (Hr _ _ E) as (c' & s' & Heq & T). inversion Heq; subst.
  unfold tag_start in T. apply andb_true_iff in T as [T _].
  unfold no_lt in Hc. rewrite T in Hc. discriminate.
Qed.

Lemma re_sub_passes (r : regex) (repl p s : str) :
  passes r p s -> re_sub r repl (p ++ s) = p ++ re_sub r repl s.
Proof.
  unfold re_sub. induction p as [|c p IH]; simpl; [reflexivity|].
  intros [-> H]. now rewrite IH.
Qed.

Lemma re_sub_whole_match (r : regex) (blk b : str) :
  blk <> [] -> re_match r (blk ++ b) = Some b ->
  re_sub r [] (blk ++ b) = re_sub r [] b.
Proof.
  intros Hn M. destruct blk as [|c blk]; [congruence|].
  unfold re_sub. cbn [app re_sub_from]. cbn [app] in M. rewrite M.
  replace (List.length (c :: blk ++ b) - List.length b)
    with (S (List.length blk))
    by (cbn [List.length]; rewrite length_app; lia).
  cbn [app]. rewrite re_sub_skip by (rewrite length_app; lia).
  now rewrite skipn_app, skipn_all, Nat.sub_diag.
Qed.

Lemma element_not_nil (name : string) (attrs text : str) :
  element name attrs text <> [].
Proof. unfold element. cbn. discriminate. Qed.

Lemma forallb_no_angle (a : str) :
  forallb no_angle a = true ->
  forallb no_lt a = true /\ forallb not_gt a = true.
Proof.
  induction a as [|c a IH]; simpl; [auto|].
  intros H. apply andb_true_iff in H as [Hc Ha].
  apply andb_true_iff in Hc as [-> ->]. destruct (IH Ha) as [-> ->]. auto.
Qed.

(** The script pass walks through a style element without touching it. *)
Lemma script_passes_style (attrs text s : str) :
  forallb no_angle attrs = true -> forallb no_lt text = true ->
  passes script_re (element "style" attrs text) s.
Proof.
  intros Ha Ht. apply forallb_no_angle in Ha as [Ha _].
  unfold element.
  change (lit ("<" ++ "style")) with ([ch "<"] ++ lit "style").
  change (lit ("</" ++ "style" ++ ">")) with ([ch "<"] ++ lit "/style>").
  rewrite <- !app_assoc.
  apply passes_app; [split; [reflexivity|exact I]|].
  apply passes_app; [now apply passes_no_lt; [exact script_match_tag|]|].
  apply passes_app; [now apply passes_no_lt; [exact script_match_tag|]|].
  apply passes_app; [now apply passes_no_lt; [exact script_match_tag|]|].
  apply passes_app; [now apply passes_no_lt; [exact script_match_tag|]|].
  apply passes_app; [split; [reflexivity|exact I]|].
  now apply passes_no_lt; [exact script_match_tag|].
Qed.

(** A script or style element that follows plain text is dropped whole, its
    text included: the page sanitizes as if the element were not there.
    (The attributes hold no angle bracket and the element's text no [<].) *)
Theorem sanitize_drops_element (a attrs text b : str) :
  forallb no_lt a = true ->
  forallb no_angle attrs = true ->
  forallb no_lt text = true ->
  sanitize (a ++ element "script" attrs text ++ b) = sanitize (a ++ b)
  /\ sanitize (a ++ element "style" attrs text ++ b) = sanitize (a ++ b).
Proof.
  intros Ha Hattrs Ht.
  destruct (forallb_no_angle _ Hattrs) as [_ Hgt].
  assert (Ps : forall s, passes script_re a s)
    by (intros s; now apply passes_no_lt; [exact script_match_tag|]).
  assert (Py : forall s, passes style_re a s)
    by (intros s; now apply passes_no_lt; [exact style_match_tag|]).
  unfold sanitize. cbv zeta. split.
  - rewrite (re_sub_passes script_re [] a _ (Ps _)).
    rewrite (@re_sub_whole_match script_re (element "script" attrs text) b
               (@element_not_nil _ _ _)
               (@block_match_element "script" attrs text b Hgt Ht)).
    now rewrite <- (re_sub_passes script_re [] a _ (Ps _)).
  - rewrite (re_sub_passes script_re [] a _ (Ps _)).
    rewrite (re_sub_passes script_re [] _ _
               (script_passes_style attrs text b Hattrs Ht)).
    rewrite app_assoc.
    assert (Py' : passes style_re a
                    (element "style" attrs text ++ re_sub script_re [] b))
      by apply Py.
    rewrite <- app_assoc.
    rewrite (re_sub_passes style_re [] a _ Py').
    rewrite (@re_sub_whole_match style_re (element "style" attrs text) _
               (@element_not_nil _ _ _)
               (@block_match_element "style" attrs text _ Hgt Ht)).
    rewrite (re_sub_passes script_re [] a b (Ps _)).
    now rewrite (re_sub_passes style_re [] a _ (Py _)).
Qed.

Lemma sanitize_drops_element_witness :
  sanitize (lit "Hello " ++ element "script" (lit " type='x'")
              (lit "alert(1);") ++ lit "<b>world</b>")
  = sanitize (lit "Hello " ++ lit "<b>world</b>")
  /\ sanitize (lit "Hello " ++ element "style" (lit " type='x'")
                 (lit "alert(1);") ++ lit "<b>world</b>")
     = sanitize (lit "Hello " ++ lit "<b>world</b>").
Proof.
  apply (@sanitize_drops_element (lit "Hello ") (lit " type='x'")
           (lit "alert(1);") (lit "<b>world</b>")); reflexivity.
Defined.

(** Nothing is fetched unless the URL, as given, parses to a non-empty scheme
    and a non-empty host; in particular it must hold a colon. *)
Theorem fetch_requires_scheme_and_host (w : World) (url : str) (st : St) :
  trace (snd (fetch_web_content w url st)) <> trace st ->
  exists scheme netloc,
    urlparse w url st = (Ok (scheme, netloc), st)
    /\ scheme <> [] /\ netloc <> []
    /\ In (ch ":") url.
Proof.
  intros H.
  assert (C : In (ch ":") url).
  { destruct (find_char (ch ":") url) eqn:F.
    - destruct (in_dec N.eq_dec (ch ":") url) as [Hin|Hn]; [exact Hin|].
      apply find_char_none in Hn. congruence.
    - destruct (fetch_no_colon w url st F) as [d E]. rewrite E in H.
      now contradiction H. }
  unfold fetch_web_content, try_except, bind in H.
  destruct (urlparse_outcome w url st) as [[[scheme netloc] E]|[msg E]];
    rewrite E in H.
  - exists scheme, netloc. split; [exact E|].
    cbn [fst snd] in H.
    destruct scheme as [|c1 s1]; [cbn in H; now contradiction H|].
    destruct netloc as [|c2 s2]; [cbn in H; now contradiction H|].
    repeat split; try discriminate. exact C.
  - cbn in H. now contradiction H.
Qed.

Lemma fetch_requires_scheme_and_host_witness :
  exists scheme netloc,
    urlparse (sample_world Stop) (lit "https://example.com/page") st0
    = (Ok (scheme, netloc), st0)
    /\ scheme <> [] /\ netloc <> []
    /\ In (ch ":") (lit "https://example.com/page").
Proof.
  apply (@fetch_requires_scheme_and_host (sample_world Stop)
           (lit "https://example.com/page") st0).
  vm_compute. discriminate.
Defined.

(** * The model endpoints *)

(** ** [GET /health] *)

(** [GET /health] never fails and always answers ["status": "healthy"],
    whatever the backends do: it sends exactly one request, the tag listing
    with a 30 second timeout, and reports the local backend available exactly
    when that request was answered with status 200; the hosted provider is
    reported available exactly when a key is configured. *)
Theorem health_check_always_healthy (b : Backend) (t : list admin_call) :
  let url := OLLAMA_BASE_URL (core b) ++ lit "/api/tags" in
  exists available,
    health_check b t =
    (Ok (JObj
       [(lit "status", JStr (lit "healthy"));
        (lit "timestamp", JStr (datetime_now b));
        (lit "providers", JObj
           [(lit "openai", JObj
               [(lit "available",
                 JBool (opt_truthy (openai_api_key (core b))));
                (lit "configured",
                 JBool (opt_truthy (openai_api_key (core b))))]);
            (lit "ollama", JObj
               [(lit "available", JBool available);
                (lit "base_url", JStr (OLLAMA_BASE_URL (core b)))])])]),
     t ++ [TagsGET url 30])
    /\ (available = true <->
        exists page, requests_get_tags b url = inr page
                     /\ status_code page = 200%Z).
Proof.
  cbv zeta. unfold health_check, abind, atry, alog.
  destruct (requests_get_tags b _) as [e|page] eqn:G; cbn.
  - exists false. split; [reflexivity|].
    split; [discriminate|]. intros (p & Hp & _). discriminate.
  - exists (Z.eqb (status_code page) 200). split; [reflexivity|].
    rewrite Z.eqb_eq. split.
    + intros S. exists page. auto.
    + intros (p & Hp & S). now inversion Hp; subst.
Qed.

(** ** [POST /show] *)

Lemma is_str_truthy (s : str) (v : json) :
  truthy s = true -> json_is_str s v = true -> json_truthy v = true.
Proof.
  destruct v; simpl; try discriminate.
  intros Hs E. apply str_eqb_eq in E. now subst.
Qed.

(** [POST /show] checks its request before it calls anything: without a
    truthy provider and model name it fails with status 400 "Provider and
    model name are required", with a provider that is neither ["ollama"] nor
    ["openai"] with status 400 "Unsupported provider", and for ["openai"] it
    answers from the request alone.  It sends a request, one, exactly when the
    provider is ["ollama"] and a model is named. *)
Theorem show_model_details_validation
    (b : Backend) (request : dict) (t : list admin_call) :
  let provider := dict_get (lit "provider") JNull request in
  let model_name := dict_get (lit "model") JNull request in
  (json_truthy provider = false \/ json_truthy model_name = false ->
   show_model_details b request t
   = (Raise (HTTPException 400 (lit "Provider and model name are required")),
      t))
  /\ (json_truthy provider = true -> json_truthy model_name = true ->
      json_is_str (lit "ollama") provider = false ->
      json_is_str (lit "openai") provider = false ->
      show_model_details b request t
      = (Raise (HTTPException 400 (lit "Unsupported provider")), t))
  /\ (json_truthy model_name = true ->
      json_is_str (lit "openai") provider = true ->
      show_model_details b request t
      = (Ok (JObj [(lit "models", JArr [JObj
           [(lit "name", model_name);
            (lit "description",
             JStr (lit "OpenAI model: " ++ py_format b model_name));
            (lit "provider", JStr (lit "openai"))]])]), t))
  /\ snd (show_model_details b request t)
     = t ++ (if json_is_str (lit "ollama") provider && json_truthy model_name
             then [ShowPOST (OLLAMA_BASE_URL (core b) ++ lit "/api/show")
                     model_name 30]
             else []).
Proof.
  cbv zeta. unfold show_model_details.
  set (provider := dict_get (lit "provider") JNull request).
  set (model_name := dict_get (lit "model") JNull request).
  repeat split.
  - intros [H|H]; rewrite H; cbn [negb orb]; [reflexivity|].
    now rewrite orb_true_r.
  - intros Hp Hm Ho Ha. now rewrite Hp, Hm, Ho, Ha.
  - intros Hm Ha.
    rewrite (is_str_truthy (lit "openai") provider eq_refl Ha), Hm.
    cbn [negb orb].
    destruct (json_is_str (lit "ollama") provider) eqn:Ho; [|now rewrite Ha].
    destruct provider; try discriminate. simpl in Ho, Ha.
    apply str_eqb_eq in Ho. apply str_eqb_eq in Ha. subst. discriminate.
  - destruct (json_is_str (lit "ollama") provider) eqn:Ho.
    + rewrite (is_str_truthy (lit "ollama") provider eq_refl Ho).
      destruct (json_truthy model_name); cbn [negb orb andb];
        [|now rewrite app_nil_r].
      unfold atry, abind, alog.
      destruct (requests_post_show b _ model_name) as [e|page];
        cbn [aworld araise aret].
      * destruct (is_RequestException e); reflexivity.
      * destruct (Z.eqb (status_code page) 200); [|reflexivity].
        destruct (json_body page) as [e|data]; cbn [aworld araise aret].
        -- destruct (is_RequestException e); reflexivity.
        -- destruct data; try reflexivity.
           destruct (json_truthy _); reflexivity.
    + cbn [andb]. rewrite app_nil_r.
      destruct (negb (json_truthy provider) || negb (json_truthy model_name));
        [reflexivity|].
      destruct (json_is_str (lit "openai") provider); reflexivity.
Qed.

(** When the local backend answers [POST /show] with a status other than
    200, the caller gets that very status, with the detail "Failed to get
    model details from Ollama"; when the request itself fails, the caller
    gets status 500, "Error connecting to Ollama: " and the cause. *)
Theorem show_model_details_upstream_failure
    (b : Backend) (request : dict) (t : list admin_call) :
  let provider := dict_get (lit "provider") JNull request in
  let model_name := dict_get (lit "model") JNull request in
  let url := OLLAMA_BASE_URL (core b) ++ lit "/api/show" in
  json_is_str (lit "ollama") provider = true ->
  json_truthy model_name = true ->
  (forall page,
     requests_post_show b url model_name = inr page ->
     status_code page <> 200%Z ->
     show_model_details b request t
     = (Raise (HTTPException (status_code page)
                 (lit "Failed to get model details from Ollama")),
        t ++ [ShowPOST url model_name 30]))
  /\ (forall msg,
        requests_post_show b url model_name = inl (RequestException msg) ->
        show_model_details b request t
        = (Raise (HTTPException 500
                    (lit "Error connecting to Ollama: " ++ msg)),
           t ++ [ShowPOST url model_name 30])).
Proof.
  cbv zeta. intros Ho Hm. unfold show_model_details.
  rewrite (is_str_truthy (lit "ollama") _ eq_refl Ho), Hm, Ho.
  cbn [negb orb]. unfold atry, abind, alog. split.
  - intros page P S. rewrite P. cbn [aworld aret araise].
    apply Z.eqb_neq in S. rewrite S. reflexivity.
  - intros msg P. rewrite P. reflexivity.
Qed.

Lemma show_model_details_upstream_failure_witness :
  (forall page,
     requests_post_show sample_backend
       (OLLAMA_BASE_URL (core sample_backend) ++ lit "/api/show")
       (dict_get (lit "model") JNull
          [(lit "provider", JStr (lit "ollama"));
           (lit "model", JStr (lit "llama2"))]) = inr page ->
     status_code page <> 200%Z ->
     show_model_details sample_backend
       [(lit "provider", JStr (lit "ollama"));
        (lit "model", JStr (lit "llama2"))] []
     = (Raise (HTTPException (status_code page)
                 (lit "Failed to get model details from Ollama")),
        [] ++ [ShowPOST
                 (OLLAMA_BASE_URL (core sample_backend) ++ lit "/api/show")
                 (dict_get (lit "model") JNull
                    [(lit "provider", JStr (lit "ollama"));
                     (lit "model", JStr (lit "llama2"))]) 30]))
  /\ (forall msg,
        requests_post_show sample_backend
          (OLLAMA_BASE_URL (core sample_backend) ++ lit "/api/show")
          (dict_get (lit "model") JNull
             [(lit "provider", JStr (lit "ollama"));
              (lit "model", JStr (lit "llama2"))])
        = inl (RequestException msg) ->
        show_model_details sample_backend
          [(lit "provider", JStr (lit "ollama"));
           (lit "model", JStr (lit "llama2"))] []
        = (Raise (HTTPException 500
                    (lit "Error connecting to Ollama: " ++ msg)),
           [] ++ [ShowPOST
                    (OLLAMA_BASE_URL (core sample_backend) ++ lit "/api/show")
                    (dict_get (lit "model") JNull
                       [(lit "provider", JStr (lit "ollama"));
                        (lit "model", JStr (lit "llama2"))]) 30])).
Proof.
  apply (@show_model_details_upstream_failure sample_backend
           [(lit "provider", JStr (lit "ollama"));
            (lit "model", JStr (lit "llama2"))] []); reflexivity.
Defined.

(** ** [GET /models] *)

Lemma dict_lookup_set_other (key k' : str) (v : json) (d : dict) :
  key <> k' -> dict_lookup k' (dict_set key v d) = dict_lookup k' d.
Proof.
  intros Hne. induction d as [|[k x] d IH]; simpl.
  - destruct (str_eqb key k') eqn:E; [|reflexivity].
    apply str_eqb_eq in E. contradiction.
  - destruct (str_eqb k key) eqn:E1; simpl.
    + apply str_eqb_eq in E1. subst k.
      destruct (str_eqb key k') eqn:E2; [|reflexivity].
      apply str_eqb_eq in E2. contradiction.
    + destruct (str_eqb k k'); [reflexivity|exact IH].
Qed.

Lemma copy_keys_other (keys : list str) (detail_data : json) (k' : str) :
  ~ In k' keys ->
  forall model_info,
    dict_lookup k' (copy_keys keys detail_data model_info)
    = dict_lookup k' model_info.
Proof.
  induction keys as [|key keys IH]; intros Hn model_info; [reflexivity|].
  cbn [copy_keys]. unfold copy_key.
  assert (Hk : key <> k') by (intros ->; apply Hn; now left).
  assert (Hr : ~ In k' keys) by (intros H; apply Hn; now right).
  destruct detail_data as [|b0|n|s|items|d]; try reflexivity.
  - destruct (contains key s); [reflexivity|now apply IH].
  - destruct (existsb (json_is_str key) items); [reflexivity|now apply IH].
  - destruct (dict_lookup key d); [|now apply IH].
    rewrite IH by exact Hr. now apply dict_lookup_set_other.
Qed.

(** The detail lookup of one model: one request, never a failure, and only
    the detail keys can change. *)
Lemma model_details_outcome (b : Backend) (name : json) (model_info : dict)
    (t : list admin_call) :
  exists model_info',
    model_details b name model_info t
    = (Ok model_info',
       t ++ [ShowPOST (OLLAMA_BASE_URL (core b) ++ lit "/api/show") name 30])
    /\ forall k', ~ In k' detail_keys ->
                  dict_lookup k' model_info' = dict_lookup k' model_info.
Proof.
  unfold model_details, atry, abind, alog.
  destruct (requests_post_show b _ name) as [e|page]; cbn [aworld araise aret].
  - exists model_info. auto.
  - destruct (Z.eqb (status_code page) 200); [|exists model_info; auto].
    destruct (json_body page) as [e|data]; cbn [aworld araise aret].
    + exists model_info. auto.
    + eexists. split; [reflexivity|].
      intros k' Hk. now apply copy_keys_other.
Qed.

Lemma model_entry_named (b : Backend) (model : json) (t : list admin_call) :
  named_model model = true ->
  exists entry,
    model_entry b model t
    = (Ok entry,
       t ++ [ShowPOST (OLLAMA_BASE_URL (core b) ++ lit "/api/show")
               (model_name_of model) 30])
    /\ reports model entry.
Proof.
  destruct model as [|b0|n|s|items|m]; try discriminate.
  unfold named_model, model_entry, model_name_of, dict_get.
  destruct (dict_lookup (lit "name") m) as [name|] eqn:N; [|discriminate].
  intros _. unfold abind.
  match goal with |- context [model_details b name ?mi t] =>
    destruct (model_details_outcome b name mi t) as (mi' & E & K) end.
  rewrite E. eexists. split; [reflexivity|].
  unfold reports. rewrite N.
  rewrite !K by (unfold detail_keys; simpl;
                 intros [H|[H|[H|[]]]]; discriminate H).
  repeat split.
Qed.

Lemma model_entry_unnamed (b : Backend) (model : json) (t : list admin_call) :
  named_model model = false ->
  exists e, model_entry b model t = (Raise e, t).
Proof.
  destruct model as [|b0|n|s|items|m]; simpl;
    try (intros _; eexists; reflexivity).
  destruct (dict_lookup (lit "name") m); [discriminate|].
  intros _. eexists. reflexivity.
Qed.

Lemma collect_models_named (b : Backend) (models : list json) :
  forallb named_model models = true ->
  forall t,
  exists entries,
    collect_models b models t
    = (Ok entries,
       t ++ map (fun m => ShowPOST (OLLAMA_BASE_URL (core b) ++ lit "/api/show")
                            (model_name_of m) 30) models)
    /\ Forall2 reports models entries.
Proof.
  induction models as [|m ms IH]; intros H t; simpl.
  - exists []. rewrite app_nil_r. split; [reflexivity|constructor].
  - simpl in H. apply andb_true_iff in H as [Hm Hms].
    destruct (model_entry_named b m t Hm) as (entry & E & R).
    unfold abind. rewrite E.
    destruct (IH Hms (t ++ [ShowPOST (OLLAMA_BASE_URL (core b) ++ lit "/api/show")
                              (model_name_of m) 30]))
      as (entries & E' & R').
    rewrite E'. exists (entry :: entries). rewrite <- app_assoc.
    split; [reflexivity|now constructor].
Qed.

Lemma collect_models_unnamed (b : Backend) (models : list json) :
  forallb named_model models = false ->
  forall t, exists e t', collect_models b models t = (Raise e, t').
Proof.
  induction models as [|m ms IH]; intros H t; simpl in *; [discriminate|].
  unfold abind. destruct (named_model m) eqn:Hm.
  - destruct (model_entry_named b m t Hm) as (entry & E & _). rewrite E.
    destruct (IH H (t ++ [ShowPOST (OLLAMA_BASE_URL (core b) ++ lit "/api/show")
                            (model_name_of m) 30])) as (e & t' & E').
    rewrite E'. eauto.
  - destruct (model_entry_unnamed b m t Hm) as (e & E). rewrite E. eauto.
Qed.

(** [GET /models] never fails, whatever the backends answer: it returns the
    two lists, the hosted one being the three static entries exactly when a
    key is configured and empty otherwise, and its first request is the tag
    listing. *)
Theorem list_models_never_fails (b : Backend) (t : list admin_call) :
  exists ollama later,
    list_models b t
    = (Ok (JObj [(lit "openai",
                  JArr (if opt_truthy (openai_api_key (core b))
                        then OPENAI_MODELS else []));
                 (lit "ollama", JArr ollama)]),
       t ++ TagsGET (OLLAMA_BASE_URL (core b) ++ lit "/api/tags") 30 :: later).
Proof.
  unfold list_models.
  match goal with |- context [atry ?m _ _] => set (inner := m) end.
  assert (H : exists later,
             snd (inner t)
             = t ++ TagsGET (OLLAMA_BASE_URL (core b) ++ lit "/api/tags") 30
                 :: later);
    [|destruct H as (later & H); unfold abind at 1, atry;
      destruct (inner t) as [[ollama|e] t1]; cbn [snd] in H; subst t1;
      cbn [any_exception aret]; eexists; eexists; reflexivity].
  subst inner.
  unfold abind, alog.
  destruct (requests_get_tags b _) as [e|page]; cbn [aworld araise aret snd];
    [exists []; reflexivity|].
  destruct (Z.eqb (status_code page) 200); [|exists []; reflexivity].
  destruct (json_body page) as [e|data]; cbn [aworld araise aret snd];
    [exists []; reflexivity|].
  assert (C : forall models t0, exists later,
              snd (collect_models b models t0) = t0 ++ later).
  { clear. induction models as [|m ms IH]; intros t0; simpl.
    - exists []. now rewrite app_nil_r.
    - unfold abind. destruct (named_model m) eqn:Hm.
      + destruct (model_entry_named b m t0 Hm) as (entry & E & _). rewrite E.
        destruct (IH (t0 ++ [ShowPOST (OLLAMA_BASE_URL (core b) ++ lit "/api/show")
                               (model_name_of m) 30])) as (later & L).
        destruct (collect_models b ms _) as [[es|e] t1]; cbn [snd] in *;
          subst t1; eexists; rewrite <- app_assoc; reflexivity.
      + destruct (model_entry_unnamed b m t0 Hm) as (e & E). rewrite E.
        exists []. now rewrite app_nil_r. }
  assert (D : forall r : exn + list json, exists later,
              snd (match aworld r (t ++ [TagsGET (OLLAMA_BASE_URL (core b)
                                                  ++ lit "/api/tags") 30]) with
                   | (Ok a, t') => collect_models b a t'
                   | (Raise e, t') => (Raise e, t')
                   end)
              = t ++ TagsGET (OLLAMA_BASE_URL (core b) ++ lit "/api/tags") 30
                  :: later).
  { intros [e|models]; cbn [aworld araise aret snd].
    - exists []. reflexivity.
    - destruct (C models (t ++ [TagsGET (OLLAMA_BASE_URL (core b)
                                          ++ lit "/api/tags") 30]))
        as (later & L).
      rewrite L. exists later. now rewrite <- app_assoc. }
  destruct data as [|b0|n|s|items|d]; try (exists []; reflexivity).
  apply D.
Qed.

Lemma list_models_listed (b : Backend) (models : list json)
    (t : list admin_call) :
  tags_listed b models ->
  list_models b t
  = (let '(r, t') :=
       collect_models b models
         (t ++ [TagsGET (OLLAMA_BASE_URL (core b) ++ lit "/api/tags") 30]) in
     (Ok (JObj [(lit "openai",
                 JArr (if opt_truthy (openai_api_key (core b))
                       then OPENAI_MODELS else []));
                (lit "ollama",
                 JArr match r with Ok entries => entries | Raise _ => [] end)]),
      t')).
Proof.
  intros (page & d & G & S & J & M).
  unfold list_models, abind, atry, alog. rewrite G. cbn [aworld aret].
  rewrite S. cbn [Z.eqb]. rewrite Pos.eqb_refl. rewrite J. cbn [aworld aret].
  rewrite M. cbn [iterate aworld aret].
  destruct (collect_models b models _) as [[entries|e] t']; reflexivity.
Qed.

(** When every listed model is an object with a name, [GET /models] reports
    them all, in the order listed, each with the listing's name, size and
    date: it looks up the details of each model once, in that order, and a
    detail lookup that fails or is refused never drops a model. *)
Theorem list_models_reports_every_model
    (b : Backend) (models : list json) (t : list admin_call) :
  tags_listed b models ->
  forallb named_model models = true ->
  exists entries,
    list_models b t
    = (Ok (JObj [(lit "openai",
                  JArr (if opt_truthy (openai_api_key (core b))
                        then OPENAI_MODELS else []));
                 (lit "ollama", JArr entries)]),
       t ++ TagsGET (OLLAMA_BASE_URL (core b) ++ lit "/api/tags") 30
         :: map (fun m => ShowPOST (OLLAMA_BASE_URL (core b) ++ lit "/api/show")
                            (model_name_of m) 30) models)
    /\ Forall2 reports models entries.
Proof.
  intros L N. rewrite (list_models_listed t L).
  destruct (collect_models_named b models N
              (t ++ [TagsGET (OLLAMA_BASE_URL (core b) ++ lit "/api/tags") 30]))
    as (entries & E & R).
  rewrite E. exists entries. rewrite <- app_assoc. split; [reflexivity|exact R].
Qed.

Lemma list_models_reports_every_model_witness :
  exists entries,
    list_models sample_backend []
    = (Ok (JObj [(lit "openai",
                  JArr (if opt_truthy (openai_api_key (core sample_backend))
                        then OPENAI_MODELS else []));
                 (lit "ollama", JArr entries)]),
       [] ++ TagsGET (OLLAMA_BASE_URL (core sample_backend) ++ lit "/api/tags") 30
         :: map (fun m => ShowPOST
                            (OLLAMA_BASE_URL (core sample_backend)
                             ++ lit "/api/show")
                            (model_name_of m) 30)
              [JObj [(lit "name", JStr (lit "llama2"))];
               JObj [(lit "name", JStr (lit "mistral"));
                     (lit "size", JNum 4109)]])
    /\ Forall2 reports
         [JObj [(lit "name", JStr (lit "llama2"))];
          JObj [(lit "name", JStr (lit "mistral")); (lit "size", JNum 4109)]]
         entries.
Proof.
  apply (@list_models_reports_every_model sample_backend
           [JObj [(lit "name", JStr (lit "llama2"))];
            JObj [(lit "name", JStr (lit "mistral")); (lit "size", JNum 4109)]]
           []).
  - eexists; eexists; repeat split.
  - reflexivity.
Defined.

(** One listed model that is not an object with a name empties the whole
    local list: [GET /models] then reports no local model at all, also not
    the ones listed before it, whose details it has already looked up. *)
Theorem list_models_all_or_nothing
    (b : Backend) (models : list json) (t : list admin_call) :
  tags_listed b models ->
  forallb named_model models = false ->
  exists t',
    list_models b t
    = (Ok (JObj [(lit "openai",
                  JArr (if opt_truthy (openai_api_key (core b))
                        then OPENAI_MODELS else []));
                 (lit "ollama", JArr [])]),
       t').
Proof.
  intros L N. rewrite (list_models_listed t L).
  destruct (collect_models_unnamed b models N
              (t ++ [TagsGET (OLLAMA_BASE_URL (core b) ++ lit "/api/tags") 30]))
    as (e & t' & E).
  rewrite E. exists t'. reflexivity.
Qed.

(** When the tag listing cannot be had (the request fails, or is answered
    with a status other than 200) [GET /models] reports no local model and
    sends nothing else. *)
Theorem list_models_backend_down (b : Backend) (t : list admin_call) :
  (exists e,
     requests_get_tags b (OLLAMA_BASE_URL (core b) ++ lit "/api/tags") = inl e)
  \/ (exists page,
        requests_get_tags b (OLLAMA_BASE_URL (core b) ++ lit "/api/tags")
        = inr page
        /\ status_code page <> 200%Z) ->
  list_models b t
  = (Ok (JObj [(lit "openai",
                JArr (if opt_truthy (openai_api_key (core b))
                      then OPENAI_MODELS else []));
               (lit "ollama", JArr [])]),
     t ++ [TagsGET (OLLAMA_BASE_URL (core b) ++ lit "/api/tags") 30]).
Proof.
  unfold list_models, abind, atry, alog.
  intros [[e G]|(page & G & S)]; rewrite G; cbn [aworld araise aret].
  - reflexivity.
  - apply Z.eqb_neq in S. rewrite S. reflexivity.
Qed.

Lemma list_models_all_or_nothing_witness :
  exists t',
    list_models unnamed_backend []
    = (Ok (JObj [(lit "openai",
                  JArr (if opt_truthy (openai_api_key (core unnamed_backend))
                        then OPENAI_MODELS else []));
                 (lit "ollama", JArr [])]),
       t').
Proof.
  apply (@list_models_all_or_nothing unnamed_backend
           [JObj [(lit "name", JStr (lit "llama2"))];
            JObj [(lit "size", JNum 4109)]]
           []).
  - eexists; eexists; repeat split.
  - reflexivity.
Defined.

Lemma list_models_backend_down_witness :
  list_models offline_backend []
  = (Ok (JObj [(lit "openai",
                JArr (if opt_truthy (openai_api_key (core offline_backend))
                      then OPENAI_MODELS else []));
               (lit "ollama", JArr [])]),
     [] ++ [TagsGET (OLLAMA_BASE_URL (core offline_backend) ++ lit "/api/tags") 30]).
Proof.
  apply (@list_models_backend_down offline_backend []).
  left. eexists. reflexivity.
Defined.

Lemma show_model_details_validation_witness :
  show_model_details sample_backend
    [(lit "provider", JStr (lit "azure")); (lit "model", JStr (lit "gpt-4"))] []
  = (Raise (HTTPException 400 (lit "Unsupported provider")), []).
Proof.
  apply (@show_model_details_validation sample_backend
           [(lit "provider", JStr (lit "azure"));
            (lit "model", JStr (lit "gpt-4"))] []);
    reflexivity.
Defined.
